(** * dlisio.lis.curves: frame layout translation

    A shallow embedding of [python/dlisio/lis/curves.py]: the table
    [nptype], the translator [spec_dtype], the builder [dfsr_dtype], the
    resolver [mkunique] and the entry point [curves].

    Modelling conventions.
    - Python [int] is [Z].  The fields [reserved_size], [samples] and
      [reprc] of a spec block are small integers read from disk; on such
      values Python's true division [/] (a binary64 float) is exact
      enough that [x % 1] is non-zero exactly when the rational quotient
      is not an integer, so a float is modelled by the rational [Q] it
      stands for.
    - A raised exception is the left injection of [result]; effects
      ([logging.error], the call into the decode engine) are recorded in
      a trace threaded by the monad [M].
    - [core.lis_sizeof_type], the numeric values of the members of
      [core.lis_reprc], [core.dfs_formatstring] and
      [core.read_data_records] live in the C++ core and are parameters
      of the development. *)

From Stdlib Require Import ZArith QArith Lia Bool List.
From Stdlib Require Import Strings.String Strings.Ascii.
From Stdlib Require Import DecimalString DecimalNat.
From stdpp Require Import gmap.
Import ListNotations.

Local Open Scope string_scope.
Local Open Scope Z_scope.

(** ** Exceptions *)

(** The exceptions the module can raise, one constructor per [raise]
    site (or per failing library call). *)
Inductive exn : Type :=
| ValueError_samples            (* spec_dtype: samples < 1 *)
| ValueError_reserve_samples    (* spec_dtype: reserve_size % samples != 0 *)
| ValueError_reserved_sizeof    (* spec_dtype: reserved_size % (samples * sizeof(reprc)) != 0 *)
| ValueError_dimension          (* np.dtype((t, n)) with n < 0 *)
| ValueError_duplicate_field (name : string) (* np.dtype([...]): field occurs more than once *)
| KeyError (key : Z)            (* nptype[reprc] *)
| ZeroDivisionError             (* float division by zero *)
| NotImplementedError (msg : string)
| EngineError (code : Z).       (* whatever core.read_data_records raises *)

Inductive pyclass : Type :=
| PyValueError | PyKeyError | PyZeroDivisionError | PyNotImplementedError
| PyOther.

Definition exn_class (e : exn) : pyclass :=
  match e with
  | ValueError_samples | ValueError_reserve_samples
  | ValueError_reserved_sizeof | ValueError_dimension
  | ValueError_duplicate_field _ => PyValueError
  | KeyError _ => PyKeyError
  | ZeroDivisionError => PyZeroDivisionError
  | NotImplementedError _ => PyNotImplementedError
  | EngineError _ => PyOther
  end.

Definition depth_mode_msg : string := "lis.curves: depth recording mode == 1".
Definition fast_channel_msg : string := "Fast channel not implemented".

(** The error kinds of the specification, and the exception that stands
    for each. *)
Inductive error_kind : Type :=
| UnsupportedCode | InvalidLayout | DuplicateFieldName
| UnsupportedDepthMode | FastChannelsPresent.

Definition kind_of (e : exn) : option error_kind :=
  match e with
  | KeyError _ => Some UnsupportedCode
  | ValueError_samples | ValueError_reserve_samples
  | ValueError_reserved_sizeof => Some InvalidLayout
  | ValueError_duplicate_field _ => Some DuplicateFieldName
  | NotImplementedError msg =>
      if String.eqb msg depth_mode_msg then Some UnsupportedDepthMode
      else if String.eqb msg fast_channel_msg then Some FastChannelsPresent
      else None
  | ValueError_dimension | ZeroDivisionError | EngineError _ => None
  end.

Definition result (A : Type) : Type := (exn + A)%type.

Definition raise {A : Type} (e : exn) : result A := inl e.
Definition ok {A : Type} (a : A) : result A := inr a.

Definition rbind {A B : Type} (r : result A) (k : A -> result B) : result B :=
  match r with
  | inl e => inl e
  | inr a => k a
  end.

Notation "'try!' x := e 'in' k" := (rbind e (fun x => k))
  (at level 10, x name, e at level 100, k at level 200).

(** ** Python numbers *)

(** [a / b] on numbers: a float, or [ZeroDivisionError]. *)
Definition truediv (a b : Q) : result Q :=
  if Qeq_bool b 0 then raise ZeroDivisionError else ok (a / b)%Q.

(** Truth value of [x % 1]: the float has a fractional part. *)
Definition mod1_nonzero (x : Q) : bool :=
  negb (Qnum x mod Zpos (Qden x) =? 0).

(** [int(x)]: truncation towards zero. *)
Definition int_of (x : Q) : Z := Z.quot (Qnum x) (Zpos (Qden x)).

(** [str(n)] for a non-negative integer, as [str.format] prints it. *)
Definition str_of_nat (n : nat) : string :=
  NilEmpty.string_of_uint (Nat.to_uint n).

(** ** numpy dtypes *)

(** What [spec_dtype] builds: [np.dtype(t)] or [np.dtype((t, n))]. *)
Inductive field_dtype : Type :=
| dt_scalar (t : string)
| dt_subarray (t : string) (n : Z).

(** Number of elements a field decodes to per frame. *)
Definition element_count (d : field_dtype) : Z :=
  match d with
  | dt_scalar _ => 1
  | dt_subarray _ n => n
  end.

Definition element_type (d : field_dtype) : string :=
  match d with
  | dt_scalar t | dt_subarray t _ => t
  end.

(** [np.dtype(t)] for one of the type strings of [nptype]. *)
Definition np_dtype (t : string) : result field_dtype := ok (dt_scalar t).

(** [np.dtype((t, n))]: numpy refuses a negative dimension. *)
Definition np_dtype_sub (t : string) (n : Z) : result field_dtype :=
  if n <? 0 then raise ValueError_dimension else ok (dt_subarray t n).

(** Byte size of the numpy type strings used by [nptype]; ['O'] is a
    pointer to a Python object. *)
Definition typestr_itemsize (t : string) : Z :=
  if String.eqb t "f4" then 4
  else if String.eqb t "i1" then 1
  else if String.eqb t "i2" then 2
  else if String.eqb t "i4" then 4
  else if String.eqb t "u1" then 1
  else if String.eqb t "O" then 8
  else 0.

Definition field_itemsize (d : field_dtype) : Z :=
  match d with
  | dt_scalar t => typestr_itemsize t
  | dt_subarray t n => typestr_itemsize t * n
  end.

(** A structured dtype: the ordered fields of one frame. *)
Definition frame_dtype : Type := list (string * field_dtype).

Definition itemsize (d : frame_dtype) : Z :=
  fold_right (fun f acc => field_itemsize (snd f) + acc) 0 d.

(** The name numpy gives field number [i]: an empty name is replaced by
    the default [f<i>]. *)
Definition np_field_name (i : nat) (name : string) : string :=
  if String.eqb name "" then ("f" ++ str_of_nat i)%string else name.

(** [np.dtype(types)] for a list of [(name, dtype)] pairs: fields are
    entered in order, and a name already entered raises [ValueError]. *)
Fixpoint np_dtype_fields (i : nat) (seen : list string)
    (types : list (string * field_dtype)) : result frame_dtype :=
  match types with
  | [] => ok []
  | (name, dt) :: rest =>
      let name' := np_field_name i name in
      if existsb (String.eqb name') seen
      then raise (ValueError_duplicate_field name')
      else try! fields := np_dtype_fields (S i) (name' :: seen) rest in
           ok ((name', dt) :: fields)
  end.

Definition np_dtype_struct (types : list (string * field_dtype))
  : result frame_dtype :=
  np_dtype_fields 0 [] types.

(** ** Records of the core *)

(** [core.spec_block]: one channel of a DFSR. *)
Record spec_block : Type := {
  mnemonic : string;
  reprc : Z;
  reserved_size : Z;
  samples : Z
}.

(** The value of an entry block. *)
Inductive entry_value : Type :=
| val_none
| val_int (z : Z)
| val_str (s : string).

(** [x.value == 1] *)
Definition value_is_1 (v : entry_value) : bool :=
  match v with
  | val_int z => z =? 1
  | _ => false
  end.

Record entry_block : Type := {
  type : Z;
  value : entry_value
}.

(** [any(x for x in dfsr.entries if x.type == 13 and x.value == 1)]: the
    generator yields the entry objects themselves, which are truthy, so
    [any] holds exactly when one entry passes the filter. *)
Definition depth_mode_entry (x : entry_block) : bool :=
  (type x =? 13) && value_is_1 (value x).

(** An opaque Python object handed through to the core. *)
Inductive pyobject : Type := PyObj (id : Z).

(** [core.dfsr] *)
Record dfsr : Type := {
  entries : list entry_block;
  specs : list spec_block;
  info : pyobject
}.

(** [LogicalFile], as far as [curves] looks at it. *)
Record logical_file : Type := {
  io : pyobject;
  index : pyobject
}.

(** A numpy array as [np.empty] returns it: shape and dtype, contents
    unspecified. *)
Record ndarray : Type := {
  shape : Z;
  dtype_of : frame_dtype
}.

(** [np.empty(shape = size, dtype = dtype)] *)
Definition np_empty (size : Z) (dtype : frame_dtype) : ndarray :=
  {| shape := size; dtype_of := dtype |}.

(** ** Effects *)

Inductive event : Type :=
| ev_logging_error (dfs : dfsr) (exc : exn)
| ev_read_data_records (fmt : string) (f_io f_index dfs_info : pyobject)
    (dtype_itemsize : Z) (dtype : frame_dtype).

Definition is_engine_call (ev : event) : bool :=
  match ev with
  | ev_read_data_records _ _ _ _ _ _ => true
  | ev_logging_error _ _ => false
  end.

(** Computations that may raise and that append to the trace of events. *)
Definition M (A : Type) : Type := list event -> result A * list event.

Definition ret {A : Type} (a : A) : M A := fun tr => (ok a, tr).
Definition throw {A : Type} (e : exn) : M A := fun tr => (raise e, tr).
Definition lift {A : Type} (r : result A) : M A := fun tr => (r, tr).
Definition emit (ev : event) : M unit := fun tr => (ok tt, (tr ++ [ev])%list).

Definition bind {A B : Type} (m : M A) (k : A -> M B) : M B :=
  fun tr =>
    match m tr with
    | (inl e, tr') => (inl e, tr')
    | (inr a, tr') => k a tr'
    end.

Notation "'let!' x := m 'in' k" := (bind m (fun x => k))
  (at level 10, x name, m at level 100, k at level 200).
Notation "m ;;; k" := (bind m (fun _ => k))
  (at level 100, k at level 200, right associativity).

(** [try: m  except ValueError as exc: h exc] *)
Definition try_except_ValueError {A : Type} (m : M A) (h : exn -> M A) : M A :=
  fun tr =>
    match m tr with
    | (inl e, tr') =>
        match exn_class e with
        | PyValueError => h e tr'
        | _ => (inl e, tr')
        end
    | (inr a, tr') => (inr a, tr')
    end.

(** ** The resolver *)

(** ['({})'.format(tailcount)] *)
Definition tail_format (tailcount : nat) : string :=
  ("(" ++ str_of_nat tailcount ++ ")")%string.

(** [collections.Counter]: counts in order of first insertion. *)
Fixpoint counter_incr (x : string) (c : list (string * nat))
  : list (string * nat) :=
  match c with
  | [] => [(x, 1%nat)]
  | (k, n) :: c' =>
      if String.eqb k x then (k, S n) :: c' else (k, n) :: counter_incr x c'
  end.

Definition Counter (labels : list string) : list (string * nat) :=
  fold_left (fun c x => counter_incr x c) labels [].

(** One turn of the loop [for duplicate in duplicates], started with
    [tailcount]: the inner loop over [types]. *)
Fixpoint retail (duplicate : string) (tailcount : nat)
    (types : list (string * field_dtype)) : list (string * field_dtype) :=
  match types with
  | [] => []
  | (name, dtype) :: rest =>
      if String.eqb name duplicate
      then ((name ++ tail_format tailcount)%string, dtype)
             :: retail duplicate (S tailcount) rest
      else (name, dtype) :: retail duplicate tailcount rest
  end.

Definition duplicates_of (labels : list string) : list string :=
  map fst (List.filter (fun xc => (1 <? snd xc)%nat) (Counter labels)).

Definition mkunique (types : list (string * field_dtype))
  : list (string * field_dtype) :=
  let labels := map fst types in
  let duplicates := duplicates_of labels in
  fold_left (fun types duplicate => retail duplicate 0 types) duplicates types.

(** ** The module over the C++ core *)

(** [core.lis_reprc(x)]: the enumeration wraps the integer code; members
    compare and hash by that integer. *)
Definition lis_reprc (x : Z) : Z := x.

Section Core.

(** Integer codes of the members of [core.lis_reprc] that [nptype]
    names. *)
Variables reprc_f16 reprc_f32 reprc_f32low reprc_f32fix : Z.
Variables reprc_i8 reprc_i16 reprc_i32 reprc_byte reprc_string : Z.

(** [core.lis_sizeof_type]: byte width of a representation code. *)
Variable lis_sizeof_type : Z -> Z.

(** [core.dfs_formatstring]: the format descriptor of a DFSR. *)
Variable dfs_formatstring : dfsr -> result string.

(** [core.read_data_records]: the decode engine. *)
Variable read_data_records :
  string -> pyobject -> pyobject -> pyobject -> Z -> (Z -> ndarray) ->
  result ndarray.

(** The dict literal [nptype], entered key by key from top to bottom. *)
Definition nptype : gmap Z string :=
  <[reprc_string := "O"]>
  (<[reprc_byte := "u1"]>
  (<[reprc_i32 := "i4"]>
  (<[reprc_i16 := "i2"]>
  (<[reprc_i8 := "i1"]>
  (<[reprc_f32fix := "f4"]>
  (<[reprc_f32low := "f4"]>
  (<[reprc_f32 := "f4"]>
  (<[reprc_f16 := "f4"]> ∅)))))))).

(** [nptype[key]] *)
Definition nptype_getitem (key : Z) : result string :=
  match nptype !! key with
  | Some t => ok t
  | None => raise (KeyError key)
  end.

Definition spec_dtype (spec : spec_block) : result field_dtype :=
  if samples spec <? 1 then raise ValueError_samples else
  try! sample_size :=
    truediv (inject_Z (reserved_size spec)) (inject_Z (samples spec)) in
  if mod1_nonzero sample_size then raise ValueError_reserve_samples else
  if lis_reprc (reprc spec) =? reprc_string then
    try! t := nptype_getitem (lis_reprc (reprc spec)) in
    np_dtype t
  else
  let reprsize := lis_sizeof_type (reprc spec) in
  try! entries := truediv sample_size (inject_Z reprsize) in
  if mod1_nonzero entries then raise ValueError_reserved_sizeof else
  let reprc := lis_reprc (reprc spec) in
  if Qeq_bool entries 1 then
    try! t := nptype_getitem reprc in
    np_dtype t
  else
    try! t := nptype_getitem reprc in
    np_dtype_sub t (int_of entries).

(** The filter of the list comprehension in [dfsr_dtype]. *)
Definition included (ch : spec_block) : bool :=
  (0 <? reserved_size ch) && (samples ch =? 1).

(** The list comprehension of [dfsr_dtype]: channels are translated in
    order and the first failure is raised. *)
Fixpoint spec_types (chs : list spec_block)
  : result (list (string * field_dtype)) :=
  match chs with
  | [] => ok []
  | ch :: rest =>
      if included ch then
        try! dt := spec_dtype ch in
        try! types := spec_types rest in
        ok ((mnemonic ch, dt) :: types)
      else spec_types rest
  end.

Definition dfsr_dtype (dfs : dfsr) (strict : bool) : M frame_dtype :=
  let! types := lift (spec_types (specs dfs)) in
  try_except_ValueError
    (lift (np_dtype_struct types))
    (fun exc =>
       emit (ev_logging_error dfs exc) ;;;
       if strict then throw exc
       else
         let types := mkunique types in
         lift (np_dtype_struct types)).

Definition fast_channel (x : spec_block) : bool := 1 <? samples x.

Definition curves (f : logical_file) (dfs : dfsr) (strict skip_fast : bool)
  : M ndarray :=
  if existsb depth_mode_entry (entries dfs)
  then throw (NotImplementedError depth_mode_msg)
  else
  if existsb fast_channel (specs dfs) && negb skip_fast
  then throw (NotImplementedError fast_channel_msg)
  else
  let! fmt := lift (dfs_formatstring dfs) in
  let! dtype := dfsr_dtype dfs strict in
  let alloc := fun size => np_empty size dtype in
  emit (ev_read_data_records fmt (io f) (index f) (info dfs)
          (itemsize dtype) dtype) ;;;
  lift (read_data_records fmt (io f) (index f) (info dfs)
          (itemsize dtype) alloc).

End Core.

(** ** The codes of the LIS79 standard *)

(** Modelled from the spec: the enumeration [core.lis_reprc], the sizing
    function [core.lis_sizeof_type], [core.dfs_formatstring] and
    [core.read_data_records] are part of the C++ core, not of the Python
    source.  This instance of the parameters is what the definitions
    are run on: the representation codes of section 3 of the
    specification under their LIS79 numbers, with the byte widths their
    names give ([0] for the variable-length string and mask types, [-1]
    for an unknown code), a format descriptor that is not looked at, and
    an engine that allocates one record. *)
Module LIS79.

Definition f16 : Z := 49.
Definition f32low : Z := 50.
Definition i8 : Z := 56.
Definition string_code : Z := 65.
Definition byte : Z := 66.
Definition f32 : Z := 68.
Definition f32fix : Z := 70.
Definition i32 : Z := 73.
Definition mask : Z := 77.
Definition i16 : Z := 79.

Definition sizeof_type (x : Z) : Z :=
  if (x =? i8) || (x =? byte) then 1
  else if (x =? f16) || (x =? i16) then 2
  else if (x =? f32) || (x =? f32low) || (x =? f32fix) || (x =? i32) then 4
  else if (x =? string_code) || (x =? mask) then 0
  else -1.

Definition formatstring (dfs : dfsr) : result string := ok "".

Definition engine (fmt : string) (f_io f_index dfs_info : pyobject)
    (dtype_itemsize : Z) (alloc : Z -> ndarray) : result ndarray :=
  ok (alloc 1).

Definition nptype : gmap Z string :=
  nptype f16 f32 f32low f32fix i8 i16 i32 byte string_code.
Definition spec_dtype : spec_block -> result field_dtype :=
  spec_dtype f16 f32 f32low f32fix i8 i16 i32 byte string_code sizeof_type.
Definition dfsr_dtype : dfsr -> bool -> M frame_dtype :=
  dfsr_dtype f16 f32 f32low f32fix i8 i16 i32 byte string_code sizeof_type.
Definition curves : logical_file -> dfsr -> bool -> bool -> M ndarray :=
  curves f16 f32 f32low f32fix i8 i16 i32 byte string_code sizeof_type
    formatstring engine.

End LIS79.


(** ** Sample inputs *)
Module Samples.

Definition channel (m : string) (code size n : Z) : spec_block :=
  {| mnemonic := m; reprc := code; reserved_size := size; samples := n |}.

Definition i32_8 : spec_block := channel "A" LIS79.i32 8 1.
Definition i32_6 : spec_block := channel "A" LIS79.i32 6 1.
Definition str_7 : spec_block := channel "A" LIS79.string_code 7 1.

Definition file : logical_file := {| io := PyObj 1; index := PyObj 2 |}.

Definition record (es : list entry_block) (chs : list spec_block) : dfsr :=
  {| entries := es; specs := chs; info := PyObj 3 |}.

(** The entry that asks for depth recording mode 1. *)
Definition depth_mode_1 : entry_block := {| type := 13; value := val_int 1 |}.

(** [TIME] twice. *)
Definition time_twice : dfsr :=
  record [] [channel "TIME" LIS79.i16 2 1; channel "TIME" LIS79.i32 4 1].

(** [A] twice, the first with a reserved size that is no multiple of
    the width of its code. *)
Definition twice_bad_size : dfsr :=
  record [] [channel "A" LIS79.i32 3 1; channel "A" LIS79.i32 4 1].

(** [A] twice next to a channel that is called [A(0)]. *)
Definition twice_and_tailed : dfsr :=
  record [] [channel "A" LIS79.i32 4 1; channel "A" LIS79.i32 4 1;
             channel "A(0)" LIS79.i32 4 1].

(** A fast channel between two slow ones. *)
Definition with_fast : dfsr :=
  record [] [channel "DEPT" LIS79.f32 4 1; channel "FAST" LIS79.f32 8 2;
             channel "GR" LIS79.i16 2 1].

(** A fast channel in a DFSR that asks for depth recording mode 1. *)
Definition fast_and_depth_mode : dfsr :=
  record [depth_mode_1] [channel "FAST" LIS79.f32 8 2].

(** Nothing but excluded channels. *)
Definition all_excluded : dfsr :=
  record [] [channel "FAST" LIS79.f32 8 2; channel "NIL" LIS79.f32 0 1].

(** The same, in a DFSR that asks for depth recording mode 1. *)
Definition all_excluded_depth_mode : dfsr :=
  record [depth_mode_1]
    [channel "FAST" LIS79.f32 8 2; channel "NIL" LIS79.f32 0 1].

End Samples.

(** ** Definitions used to state the properties *)

Fixpoint mem_char (c : ascii) (s : string) : bool :=
  match s with
  | EmptyString => false
  | String a s' => Ascii.eqb a c || mem_char c s'
  end.

(** Count recorded for [x] in a counter ([0] when absent). *)
Fixpoint cget (x : string) (c : list (string * nat)) : nat :=
  match c with
  | [] => 0%nat
  | (k, n) :: c' => if String.eqb k x then n else cget x c'
  end.

(** The list [mkunique] is after the turns for the duplicates [done]:
    a label of [done] carries the number of its earlier occurrences
    ([seen] holds the labels to the left), any other label is as it
    was. *)
Fixpoint stage (done seen : list string) (types : list (string * field_dtype))
  : list (string * field_dtype) :=
  match types with
  | [] => []
  | (name, dtype) :: rest =>
      ((if existsb (String.eqb name) done
        then (name ++ tail_format (count_occ string_dec seen name))%string
        else name), dtype) :: stage done (name :: seen) rest
  end.

(** The calls into the decode engine that a trace records. *)
Definition engine_calls (tr : list event) : list event :=
  List.filter is_engine_call tr.

(** The one call [curves] makes into the engine. *)
Definition engine_call (f : logical_file) (dfs : dfsr) (fmt : string)
    (dtype : frame_dtype) : event :=
  ev_read_data_records fmt (io f) (index f) (info dfs) (itemsize dtype) dtype.

(** No label reads as a duplicated label followed by a tail. *)
Definition tails_fresh (labels : list string) : Prop :=
  forall (d : string) (k : nat),
    (1 < count_occ string_dec labels d)%nat ->
    ~ In (d ++ tail_format k)%string labels.

(** The resolver in the words of the specification: every occurrence of
    a label that occurs more than once among [labels] gets the zero-based
    number of its occurrence as a tail, in the order of the list ([seen]
    holds the labels to the left); any other label is left as it is. *)
Fixpoint resolver_spec_from (labels seen : list string)
    (types : list (string * field_dtype)) : list (string * field_dtype) :=
  match types with
  | [] => []
  | (name, dtype) :: rest =>
      ((if (1 <? count_occ string_dec labels name)%nat
        then (name ++ tail_format (count_occ string_dec seen name))%string
        else name), dtype) :: resolver_spec_from labels (name :: seen) rest
  end.

Definition resolver_spec (types : list (string * field_dtype))
  : list (string * field_dtype) :=
  resolver_spec_from (map fst types) [] types.

(** ** More sample inputs *)
Module MoreSamples.

(** Two samples per frame in a reserved size that two does not divide. *)
Definition odd_size : spec_block := Samples.channel "A" LIS79.i32 7 2.

(** Two samples of two 16-bit integers each. *)
Definition two_by_two : spec_block := Samples.channel "A" LIS79.i16 8 2.

(** A channel of the mask type, whose width is zero. *)
Definition masked : spec_block := Samples.channel "A" LIS79.mask 4 1.

Definition time_pairs : list (string * field_dtype) :=
  [("TIME", dt_scalar "i2"); ("TIME", dt_scalar "i4")].

(** [Samples.with_fast] without its fast channel. *)
Definition without_fast : dfsr :=
  Samples.record [] [Samples.channel "DEPT" LIS79.f32 4 1;
                     Samples.channel "GR" LIS79.i16 2 1].

End MoreSamples.

(** The labels of a list in the order of their first occurrence
    ([seen] holds the labels met so far). *)
Fixpoint first_occurrences (seen labels : list string) : list string :=
  match labels with
  | [] => []
  | x :: rest =>
      if existsb (String.eqb x) seen then first_occurrences seen rest
      else x :: first_occurrences (x :: seen) rest
  end.

(** What [mkunique] may do to one pair: the dtype stays, and the label
    gets a suffix, which is empty exactly when the label occurs at most
    once among [labels]. *)
Definition relabelled (labels : list string)
    (old new : string * field_dtype) : Prop :=
  snd new = snd old /\
  exists suffix : string,
    fst new = (fst old ++ suffix)%string /\
    (suffix = ""%string <-> (count_occ string_dec labels (fst old) <= 1)%nat).

(** The state of one pair after the turns for [done]. *)
Definition relabelled_after (done : list string)
    (old new : string * field_dtype) : Prop :=
  snd new = snd old /\
  exists suffix : string,
    fst new = (fst old ++ suffix)%string /\
    (suffix = ""%string <-> ~ In (fst old) done).

(** * The translator *)

Section Translator.

Variables reprc_f16 reprc_f32 reprc_f32low reprc_f32fix : Z.
Variables reprc_i8 reprc_i16 reprc_i32 reprc_byte reprc_string : Z.
Variable lis_sizeof_type : Z -> Z.
Abbreviation nptype_getitem := (nptype_getitem reprc_f16 reprc_f32 reprc_f32low reprc_f32fix reprc_i8 reprc_i16 reprc_i32 reprc_byte reprc_string).
Abbreviation spec_dtype := (spec_dtype reprc_f16 reprc_f32 reprc_f32low reprc_f32fix reprc_i8 reprc_i16 reprc_i32 reprc_byte reprc_string lis_sizeof_type).

Lemma rbind_ok {A B : Type} (a : A) (k : A -> result B) :
  rbind (ok a) k = k a.
Proof. reflexivity. Qed.

Lemma rbind_raise {A B : Type} (e : exn) (k : A -> result B) :
  rbind (raise e) k = raise e.
Proof. reflexivity. Qed.

Lemma truediv_by_1 (r : Z) :
  truediv (inject_Z r) (inject_Z 1) = ok (r * 1 # 1)%Q.
Proof. reflexivity. Qed.

Lemma mod1_nonzero_int (r : Z) : mod1_nonzero (r * 1 # 1) = false.
Proof.
  unfold mod1_nonzero. simpl. rewrite Z.mod_1_r. reflexivity.
Qed.

Lemma truediv_width (r w : Z) :
  truediv (r * 1 # 1) (inject_Z w) =
  if w =? 0 then raise ZeroDivisionError
  else ok (r * Z.sgn w # Z.to_pos (Z.abs w))%Q.
Proof.
  unfold truediv, Qeq_bool. simpl. rewrite Z.mul_1_r.
  destruct w as [|p|p]; simpl; try reflexivity.
  - unfold Qdiv, Qinv, Qmult. simpl. rewrite !Z.mul_1_r. reflexivity.
  - unfold Qdiv, Qinv, Qmult. simpl. rewrite !Z.mul_1_r. reflexivity.
Qed.

Lemma entries_mod1 (r w : Z) :
  w <> 0 ->
  mod1_nonzero (r * Z.sgn w # Z.to_pos (Z.abs w)) = negb (r mod w =? 0).
Proof.
  intros Hw. unfold mod1_nonzero. simpl. f_equal.
  destruct w as [|p|p]; [congruence| |]; simpl.
  - rewrite Z.mul_1_r. reflexivity.
  - destruct (Z.eqb_spec (r mod Z.neg p) 0) as [E|E];
      destruct (Z.eqb_spec ((r * -1) mod Z.pos p) 0) as [F|F]; try reflexivity;
      exfalso.
    + apply F. apply Z.mod_divide in E; [|lia]. apply Z.mod_divide; [lia|].
      destruct E as [k ->]. exists k. lia.
    + apply E. apply Z.mod_divide in F; [|lia]. apply Z.mod_divide; [lia|].
      destruct F as [k Hk]. exists k. lia.
Qed.

Lemma entries_eq_1 (r w : Z) :
  w <> 0 ->
  Qeq_bool (r * Z.sgn w # Z.to_pos (Z.abs w)) 1 = (r =? w).
Proof.
  intros Hw. unfold Qeq_bool. simpl.
  destruct w as [|p|p]; [congruence| |]; simpl;
    destruct (Z.eqb_spec r (Z.pos p)), (Z.eqb_spec r (Z.neg p)); lia.
Qed.

Lemma entries_int (r w : Z) :
  w <> 0 -> r mod w = 0 ->
  int_of (r * Z.sgn w # Z.to_pos (Z.abs w)) = r / w.
Proof.
  intros Hw Hm. unfold int_of. simpl.
  apply Z.mod_divide in Hm; [|assumption]. destruct Hm as [k ->].
  rewrite Z.div_mul by assumption.
  destruct w as [|p|p]; [congruence| |]; simpl.
  - rewrite Z.mul_1_r. apply Z.quot_mul. lia.
  - replace (k * Z.neg p * -1) with (k * Z.pos p) by lia.
    apply Z.quot_mul. lia.
Qed.

Lemma spec_dtype_samples_1 (spec : spec_block) :
  samples spec = 1 ->
  reprc spec <> reprc_string ->
  lis_sizeof_type (reprc spec) <> 0 ->
  spec_dtype spec =
  let r := reserved_size spec in
  let w := lis_sizeof_type (reprc spec) in
  if negb (r mod w =? 0) then raise ValueError_reserved_sizeof
  else if r =? w then
    try! t := nptype_getitem (reprc spec) in np_dtype t
  else
    try! t := nptype_getitem (reprc spec) in np_dtype_sub t (r / w).
Proof.
  intros Hs Hc Hw. unfold spec_dtype, lis_reprc. rewrite Hs.
  change (1 <? 1) with false. cbv iota.
  rewrite truediv_by_1, rbind_ok, mod1_nonzero_int.
  destruct (Z.eqb_spec (reprc spec) reprc_string) as [E|_]; [contradiction|].
  rewrite truediv_width.
  destruct (Z.eqb_spec (lis_sizeof_type (reprc spec)) 0) as [E|_];
    [contradiction|].
  rewrite rbind_ok. cbv zeta.
  rewrite entries_mod1, entries_eq_1 by assumption.
  destruct (Z.eqb_spec (reserved_size spec mod lis_sizeof_type (reprc spec)) 0)
    as [Hm|Hm]; cbn [negb]; [|reflexivity].
  rewrite entries_int by assumption. reflexivity.
Qed.

Lemma nptype_string : nptype_getitem reprc_string = ok "O".
Proof.
  unfold nptype_getitem, nptype. rewrite lookup_insert_eq. reflexivity.
Qed.

Lemma nptype_outside (code : Z) :
  ~ In code [reprc_f16; reprc_f32; reprc_f32low; reprc_f32fix; reprc_i8;
             reprc_i16; reprc_i32; reprc_byte; reprc_string] ->
  nptype_getitem code = raise (KeyError code).
Proof.
  intros Hout. unfold nptype_getitem, nptype.
  rewrite !lookup_insert_ne, lookup_empty; [reflexivity|..];
    intros ->; apply Hout; simpl; tauto.
Qed.

(** C2: a channel with [samples == 1], [reserved_size > 0] and a
    non-string code of [nptype] whose byte width [w] is positive and
    divides [reserved_size] translates successfully; the field has
    [reserved_size / w] elements of the code's type, it is the scalar
    dtype when [reserved_size == w] and the array dtype otherwise, and it
    has one element exactly when [reserved_size == w]. *)
Theorem spec_dtype_multiple (spec : spec_block) (t : string) (w : Z) :
  samples spec = 1 ->
  0 < reserved_size spec ->
  reprc spec <> reprc_string ->
  nptype_getitem (reprc spec) = ok t ->
  lis_sizeof_type (reprc spec) = w ->
  0 < w ->
  reserved_size spec mod w = 0 ->
  exists d : field_dtype,
    spec_dtype spec = ok d /\
    d = (if reserved_size spec =? w then dt_scalar t
         else dt_subarray t (reserved_size spec / w)) /\
    element_type d = t /\
    element_count d = reserved_size spec / w /\
    (element_count d = 1 <-> reserved_size spec = w).
Proof.
  intros Hs Hr Hc Ht Hw Hpos Hm. subst w.
  set (w := lis_sizeof_type (reprc spec)) in *.
  assert (Hq : reserved_size spec / w = 1 <-> reserved_size spec = w).
  { apply Z.mod_divide in Hm; [|lia]. destruct Hm as [k Hk].
    rewrite Hk, Z.div_mul by lia. nia. }
  rewrite spec_dtype_samples_1 by (fold w; auto; lia).
  cbv zeta. fold w. rewrite Hm, Ht, rbind_ok. cbn [Z.eqb negb].
  destruct (Z.eqb_spec (reserved_size spec) w) as [E|E].
  - eexists; repeat split; try reflexivity; cbn [element_count]; try tauto.
    symmetry. tauto.
  - assert (Hn : (reserved_size spec / w <? 0) = false).
    { apply Z.ltb_ge. apply Z.div_pos; lia. }
    unfold np_dtype_sub. rewrite Hn.
    eexists; repeat split; try reflexivity; cbn [element_count]; tauto.
Qed.

(** C3: a channel with [samples == 1] and a non-string code whose byte
    width [w] does not divide [reserved_size] is refused with the
    [ValueError] of the width check (InvalidLayout); no dtype is
    returned.  The width only has to be non-zero, and the sign of
    [reserved_size] plays no part. *)
Theorem spec_dtype_not_multiple (spec : spec_block) (w : Z) :
  samples spec = 1 ->
  reprc spec <> reprc_string ->
  lis_sizeof_type (reprc spec) = w ->
  w <> 0 ->
  reserved_size spec mod w <> 0 ->
  spec_dtype spec = raise ValueError_reserved_sizeof /\
  kind_of ValueError_reserved_sizeof = Some InvalidLayout.
Proof.
  intros Hs Hc Hw Hnz Hm. subst w. split; [|reflexivity].
  rewrite spec_dtype_samples_1 by assumption. cbv zeta.
  apply Z.eqb_neq in Hm. rewrite Hm. reflexivity.
Qed.

(** C4: a channel with [samples == 1] and the string code translates to
    the scalar object dtype, one element, whatever [reserved_size] is and
    whatever [lis_sizeof_type] answers: the width is never asked for. *)
Theorem spec_dtype_string (spec : spec_block) :
  samples spec = 1 ->
  reprc spec = reprc_string ->
  spec_dtype spec = ok (dt_scalar "O") /\
  element_count (dt_scalar "O") = 1.
Proof.
  intros Hs Hc. split; [|reflexivity].
  unfold spec_dtype, lis_reprc. rewrite Hs.
  change (1 <? 1) with false. cbv iota.
  rewrite truediv_by_1, rbind_ok, mod1_nonzero_int, Hc, Z.eqb_refl.
  rewrite nptype_string. reflexivity.
Qed.

(** C7: for a code that is none of the nine keys of [nptype] the lookup
    raises [KeyError] (UnsupportedCode), and [spec_dtype] raises on every
    channel that carries such a code. *)
Theorem unsupported_code_fails (code : Z) :
  ~ In code [reprc_f16; reprc_f32; reprc_f32low; reprc_f32fix; reprc_i8;
             reprc_i16; reprc_i32; reprc_byte; reprc_string] ->
  nptype_getitem code = raise (KeyError code) /\
  kind_of (KeyError code) = Some UnsupportedCode /\
  forall spec : spec_block,
    reprc spec = code -> exists e : exn, spec_dtype spec = raise e.
Proof.
  intros Hout. pose proof (nptype_outside code Hout) as Hk.
  split; [exact Hk|]. split; [reflexivity|].
  intros spec Hc. unfold spec_dtype, lis_reprc. rewrite Hc, Hk.
  destruct (samples spec <? 1); [eauto|].
  destruct (truediv _ _) as [e|sample_size]; [eexists; reflexivity|].
  rewrite rbind_ok.
  destruct (mod1_nonzero sample_size); [eauto|].
  destruct (Z.eqb_spec code reprc_string) as [E|_].
  { exfalso. apply Hout. rewrite E. simpl. tauto. }
  cbv zeta.
  destruct (truediv _ _) as [e|entries0]; [eexists; reflexivity|].
  rewrite rbind_ok.
  destruct (mod1_nonzero entries0); [eauto|].
  destruct (Qeq_bool entries0 1); eexists; reflexivity.
Qed.

End Translator.

(** * The resolver *)

Section Resolver.

Local Open Scope nat_scope.

Lemma mem_char_app (c : ascii) (s t : string) :
  mem_char c (s ++ t) = mem_char c s || mem_char c t.
Proof.
  induction s as [|a s IH]; simpl; [reflexivity|].
  rewrite IH. apply orb_assoc.
Qed.

(** A string is cut in one way only at the first occurrence of [c]. *)
Lemma append_cut_first (c : ascii) (s s' t t' : string) :
  mem_char c s = false -> mem_char c s' = false ->
  (s ++ String c t)%string = (s' ++ String c t')%string ->
  s = s' /\ t = t'.
Proof.
  revert s'. induction s as [|a s IH]; intros [|b s'] Hs Hs' E; simpl in *.
  - injection E as ->. auto.
  - injection E as <- _. rewrite Ascii.eqb_refl in Hs'. discriminate.
  - injection E as -> _. rewrite Ascii.eqb_refl in Hs. discriminate.
  - injection E as -> E. apply orb_false_elim in Hs as [_ Hs].
    apply orb_false_elim in Hs' as [_ Hs'].
    destruct (IH s' Hs Hs' E) as [-> ->]. auto.
Qed.

(** ... and in one way only at the last occurrence of [c]. *)
Lemma append_cut_last (c : ascii) (s s' t t' : string) :
  mem_char c t = false -> mem_char c t' = false ->
  (s ++ String c t)%string = (s' ++ String c t')%string ->
  s = s' /\ t = t'.
Proof.
  intros Ht Ht'. revert s'.
  induction s as [|a s IH]; intros [|b s'] E; simpl in *.
  - injection E as ->. auto.
  - injection E as _ E. rewrite E, mem_char_app in Ht. simpl in Ht.
    rewrite Ascii.eqb_refl, orb_true_r in Ht. discriminate.
  - injection E as _ E. rewrite <- E, mem_char_app in Ht'. simpl in Ht'.
    rewrite Ascii.eqb_refl, orb_true_r in Ht'. discriminate.
  - injection E as -> E. destruct (IH s' E) as [-> ->]. auto.
Qed.

Lemma uint_no_paren (d : Decimal.uint) :
  mem_char "("%char (NilEmpty.string_of_uint d) = false /\
  mem_char ")"%char (NilEmpty.string_of_uint d) = false.
Proof.
  induction d; simpl; auto.
Qed.

Lemma str_of_nat_no_paren (k : nat) :
  mem_char "("%char (str_of_nat k) = false /\
  mem_char ")"%char (str_of_nat k) = false.
Proof. apply uint_no_paren. Qed.

Lemma str_of_nat_inj (j k : nat) : str_of_nat j = str_of_nat k -> j = k.
Proof.
  unfold str_of_nat. intros E.
  apply (f_equal NilEmpty.uint_of_string) in E.
  rewrite !NilEmpty.usu in E. injection E as E.
  apply (f_equal Nat.of_uint) in E.
  now rewrite !DecimalNat.Unsigned.of_to in E.
Qed.

Lemma tail_format_inj (n m : string) (j k : nat) :
  (n ++ tail_format j)%string = (m ++ tail_format k)%string ->
  n = m /\ j = k.
Proof.
  unfold tail_format. simpl. intros E.
  apply append_cut_last in E.
  - destruct E as [-> E]. split; [reflexivity|].
    apply (append_cut_first ")"%char _ _ ""%string ""%string) in E.
    + apply str_of_nat_inj, E.
    + apply str_of_nat_no_paren.
    + apply str_of_nat_no_paren.
  - rewrite mem_char_app. simpl.
    rewrite (proj1 (str_of_nat_no_paren _)). reflexivity.
  - rewrite mem_char_app. simpl.
    rewrite (proj1 (str_of_nat_no_paren _)). reflexivity.
Qed.

Lemma tail_format_neq (n : string) (k : nat) :
  (n ++ tail_format k)%string <> n.
Proof.
  induction n as [|a n IH]; simpl.
  - discriminate.
  - intros E. injection E as E. contradiction.
Qed.


(** *** The counter *)

Lemma cget_incr (x y : string) (c : list (string * nat)) :
  cget y (counter_incr x c) =
  if String.eqb x y then S (cget y c) else cget y c.
Proof.
  induction c as [|[k n] c IH]; simpl.
  - destruct (String.eqb x y); reflexivity.
  - destruct (String.eqb_spec k x) as [->|Hkx]; simpl.
    + destruct (String.eqb x y); reflexivity.
    + destruct (String.eqb_spec k y) as [->|Hky].
      * destruct (String.eqb_spec x y) as [->|_]; [congruence|reflexivity].
      * apply IH.
Qed.

Lemma keys_incr (x : string) (c : list (string * nat)) :
  forall k, In k (map fst (counter_incr x c)) <-> k = x \/ In k (map fst c).
Proof.
  induction c as [|[k' n] c IH]; intros k; simpl.
  - intuition congruence.
  - destruct (String.eqb_spec k' x) as [->|Hkx]; simpl.
    + intuition congruence.
    + rewrite IH. intuition congruence.
Qed.

Lemma keys_incr_NoDup (x : string) (c : list (string * nat)) :
  List.NoDup (map fst c) -> List.NoDup (map fst (counter_incr x c)).
Proof.
  induction c as [|[k n] c IH]; simpl; intros Hnd.
  - constructor; [simpl; tauto|constructor].
  - destruct (String.eqb_spec k x) as [->|Hkx]; simpl; [exact Hnd|].
    inversion Hnd as [|? ? Hk Hc]; subst. constructor; [|auto].
    rewrite keys_incr. intuition congruence.
Qed.

Lemma Counter_from (labels : list string) :
  forall c : list (string * nat),
    List.NoDup (map fst c) ->
    let c' := fold_left (fun c x => counter_incr x c) labels c in
    List.NoDup (map fst c') /\
    forall y, cget y c' = cget y c + count_occ string_dec labels y.
Proof.
  induction labels as [|x labels IH]; intros c Hnd; simpl.
  - split; [assumption|]. intros y. lia.
  - destruct (IH (counter_incr x c) (keys_incr_NoDup x c Hnd)) as [H1 H2].
    split; [exact H1|]. intros y. rewrite H2, cget_incr.
    destruct (string_dec x y) as [->|Hne].
    + rewrite String.eqb_refl. lia.
    + apply String.eqb_neq in Hne. rewrite Hne. lia.
Qed.

Lemma cget_In (x : string) (n : nat) (c : list (string * nat)) :
  List.NoDup (map fst c) -> (In (x, n) c <-> cget x c = n /\ In x (map fst c)).
Proof.
  induction c as [|[k m] c IH]; simpl; intros Hnd.
  - tauto.
  - inversion Hnd as [|? ? Hk Hc]; subst.
    destruct (String.eqb_spec k x) as [->|Hkx].
    + split.
      * intros [E|Hin]; [injection E as ->; auto|].
        exfalso. apply Hk. apply (in_map fst) in Hin. exact Hin.
      * intros [-> _]. auto.
    + rewrite (IH Hc). intuition congruence.
Qed.

Lemma cget_absent (x : string) (c : list (string * nat)) :
  ~ In x (map fst c) -> cget x c = 0.
Proof.
  induction c as [|[k m] c IH]; simpl; intros Hn; [reflexivity|].
  destruct (String.eqb_spec k x) as [->|Hkx]; [tauto|apply IH; tauto].
Qed.

(** [duplicates] holds exactly the labels that occur more than once,
    each of them once. *)
Lemma duplicates_of_iff (labels : list string) (d : string) :
  In d (duplicates_of labels) <-> 1 < count_occ string_dec labels d.
Proof.
  unfold duplicates_of, Counter.
  destruct (Counter_from labels [] (List.NoDup_nil _)) as [Hnd Hc].
  cbv zeta in Hnd, Hc. set (c := fold_left _ labels []) in *.
  rewrite in_map_iff. split.
  - intros [[k n] [<- Hin]]. apply filter_In in Hin as [Hin Hn].
    simpl in *. apply Nat.ltb_lt in Hn.
    apply (cget_In _ _ _ Hnd) in Hin as [Hg _].
    rewrite Hc in Hg. simpl in Hg. lia.
  - intros Hd. exists (d, count_occ string_dec labels d). split; [reflexivity|].
    apply filter_In. split; [|apply Nat.ltb_lt; exact Hd].
    apply (cget_In _ _ _ Hnd). split; [rewrite Hc; reflexivity|].
    destruct (in_dec string_dec d (map fst c)) as [Hin|Hout]; [exact Hin|].
    apply cget_absent in Hout. rewrite Hc in Hout. simpl in Hout. lia.
Qed.

Lemma duplicates_of_NoDup (labels : list string) :
  List.NoDup (duplicates_of labels).
Proof.
  unfold duplicates_of, Counter.
  destruct (Counter_from labels [] (List.NoDup_nil _)) as [Hnd _].
  cbv zeta in Hnd. set (c := fold_left _ labels []) in *. clearbody c.
  induction c as [|[k n] c IH]; simpl; [constructor|].
  inversion Hnd as [|? ? Hk Hc]; subst.
  destruct (1 <? n); simpl; [|auto].
  constructor; [|auto]. rewrite in_map_iff. intros [[k' n'] [E Hin]].
  apply filter_In in Hin as [Hin _]. simpl in E. subst k'.
  apply Hk. apply (in_map fst) in Hin. exact Hin.
Qed.


(** *** One turn of the loop *)

Lemma retail_snd (d : string) (types : list (string * field_dtype)) :
  forall tc, map snd (retail d tc types) = map snd types.
Proof.
  induction types as [|[n dt] rest IH]; intros tc; simpl; [reflexivity|].
  destruct (String.eqb n d); simpl; f_equal; apply IH.
Qed.

Lemma mem_In (n : string) (l : list string) :
  existsb (String.eqb n) l = true <-> In n l.
Proof.
  rewrite existsb_exists. split.
  - intros [x [Hin E]]. apply String.eqb_eq in E. subst. exact Hin.
  - intros Hin. exists n. split; [exact Hin|apply String.eqb_refl].
Qed.

Lemma mem_not_In (n : string) (l : list string) :
  existsb (String.eqb n) l = false <-> ~ In n l.
Proof.
  rewrite <- mem_In. destruct (existsb _ l); intuition congruence.
Qed.

Lemma stage_nil (seen : list string) (types : list (string * field_dtype)) :
  stage [] seen types = types.
Proof.
  revert seen. induction types as [|[n dt] rest IH]; intros seen; simpl;
    [reflexivity|]. now rewrite IH.
Qed.

(** The turn for [d] takes the list from [stage done] to
    [stage (d :: done)], as long as no label that already carries a tail
    reads [d]. *)
Lemma retail_stage (d : string) (done : list string) :
  ~ In d done ->
  (forall n k, In n done -> (n ++ tail_format k)%string <> d) ->
  forall types seen,
    retail d (count_occ string_dec seen d) (stage done seen types) =
    stage (d :: done) seen types.
Proof.
  intros Hd Hfresh. induction types as [|[n dt] rest IH]; intros seen;
    [reflexivity|].
  cbn [stage retail existsb].
  destruct (String.eqb_spec n d) as [->|Hnd].
  - apply mem_not_In in Hd. rewrite Hd. cbn [orb].
    rewrite String.eqb_refl. f_equal.
    rewrite <- IH. f_equal. simpl.
    destruct (string_dec d d); [reflexivity|congruence].
  - cbn [orb]. assert (Hc : count_occ string_dec (n :: seen) d
                            = count_occ string_dec seen d).
    { simpl. destruct (string_dec n d); [congruence|reflexivity]. }
    destruct (existsb (String.eqb n) done) eqn:Hm.
    + apply mem_In in Hm.
      specialize (Hfresh n (count_occ string_dec seen n) Hm).
      apply String.eqb_neq in Hfresh. rewrite Hfresh.
      f_equal. rewrite <- IH, Hc. reflexivity.
    + apply String.eqb_neq in Hnd. rewrite Hnd.
      f_equal. rewrite <- IH, Hc. reflexivity.
Qed.

Lemma turns_stage (types : list (string * field_dtype)) :
  forall ds done : list string,
    List.NoDup ds ->
    (forall d, In d ds -> ~ In d done) ->
    (forall n k d, In n (ds ++ done)%list -> In d ds ->
                   (n ++ tail_format k)%string <> d) ->
    fold_left (fun types duplicate => retail duplicate 0 types) ds
      (stage done [] types) =
    stage (rev ds ++ done)%list [] types.
Proof.
  induction ds as [|d ds IH]; intros done Hnd Hout Hfresh; [reflexivity|].
  inversion Hnd as [|? ? Hd Hds]; subst. cbn [fold_left].
  change 0%nat with (count_occ string_dec [] d).
  rewrite retail_stage.
  - rewrite IH.
    + simpl. rewrite <- app_assoc. reflexivity.
    + exact Hds.
    + intros d' Hin [E|Hin']; [congruence|].
      apply (Hout d'); simpl; auto.
    + intros n k d' Hn Hd'. apply Hfresh; [|simpl; auto].
      apply in_app_or in Hn. apply in_or_app. simpl in *. tauto.
  - apply Hout. simpl. auto.
  - intros n k Hn. apply Hfresh; simpl; auto.
    right. apply in_or_app. auto.
Qed.

Lemma mkunique_stage (types : list (string * field_dtype)) :
  tails_fresh (map fst types) ->
  mkunique types = stage (rev (duplicates_of (map fst types)) ++ [])%list [] types.
Proof.
  intros Hfresh. unfold mkunique.
  rewrite <- (stage_nil [] types) at 2.
  apply turns_stage.
  - apply duplicates_of_NoDup.
  - simpl. tauto.
  - intros n k d Hn Hd E. rewrite app_nil_r in Hn.
    apply duplicates_of_iff in Hn, Hd.
    apply (Hfresh n k Hn). rewrite E.
    apply (count_occ_In string_dec). lia.
Qed.


(** *** Labels after all turns *)

Lemma stage_In (done : list string) (types : list (string * field_dtype)) :
  forall (seen : list string) (x : string),
    In x (map fst (stage done seen types)) ->
    exists m : string,
      In m (map fst types) /\
      ((~ In m done /\ x = m) \/
       (In m done /\
        exists c, count_occ string_dec seen m <= c /\
                  x = (m ++ tail_format c)%string)).
Proof.
  induction types as [|[n dt] rest IH]; intros seen x; simpl; [tauto|].
  intros [E|Hin].
  - exists n. split; [auto|].
    destruct (existsb (String.eqb n) done) eqn:Hm.
    + apply mem_In in Hm. right. split; [exact Hm|].
      exists (count_occ string_dec seen n). split; [lia|congruence].
    + apply mem_not_In in Hm. left. split; [exact Hm|congruence].
  - destruct (IH _ _ Hin) as [m [Hm Hcase]]. exists m. split; [auto|].
    destruct Hcase as [Hcase|[Hd [c [Hc E]]]]; [left; exact Hcase|].
    right. split; [exact Hd|]. exists c. split; [|exact E].
    simpl in Hc. destruct (string_dec n m); lia.
Qed.

Lemma stage_NoDup (done all : list string) :
  (forall n, ~ In n done -> count_occ string_dec all n <= 1) ->
  (forall n k, In n done -> ~ In (n ++ tail_format k)%string all) ->
  forall (types : list (string * field_dtype)) (seen : list string),
    (forall x, count_occ string_dec seen x
               + count_occ string_dec (map fst types) x
               <= count_occ string_dec all x) ->
    List.NoDup (map fst (stage done seen types)).
Proof.
  intros Hsingle Hfresh.
  induction types as [|[n dt] rest IH]; intros seen Hall; simpl;
    [constructor|].
  assert (Hsub : forall m, In m (map fst rest) -> In m all).
  { intros m Hm. apply (count_occ_In string_dec).
    apply (count_occ_In string_dec) in Hm.
    specialize (Hall m). simpl in Hall. destruct (string_dec n m); lia. }
  assert (Hn : In n all).
  { apply (count_occ_In string_dec). specialize (Hall n). simpl in Hall.
    destruct (string_dec n n); [lia|congruence]. }
  constructor.
  - intros Hin. apply stage_In in Hin as [m [Hm Hcase]].
    destruct (existsb (String.eqb n) done) eqn:Hmem.
    + apply mem_In in Hmem.
      destruct Hcase as [[_ E]|[_ [c [Hc E]]]].
      * apply (Hfresh n (count_occ string_dec seen n) Hmem).
        rewrite E. apply Hsub, Hm.
      * apply tail_format_inj in E as [<- <-]. simpl in Hc.
        destruct (string_dec n n); [lia|congruence].
    + apply mem_not_In in Hmem.
      destruct Hcase as [[_ <-]|[Hd [c [_ E]]]].
      * specialize (Hsingle n Hmem). specialize (Hall n).
        apply (count_occ_In string_dec) in Hm. simpl in Hall.
        destruct (string_dec n n); [lia|congruence].
      * apply (Hfresh m c Hd). rewrite <- E. exact Hn.
  - apply IH. intros x. specialize (Hall x). simpl in *.
    destruct (string_dec n x); lia.
Qed.

Lemma append_nonempty (n t : string) :
  n <> ""%string -> (n ++ t)%string <> ""%string.
Proof. destruct n; simpl; [tauto|discriminate]. Qed.

(** Under [tails_fresh] the resolver does what its name says. *)
Lemma stage_resolver_spec (done labels : list string) :
  (forall n, In n done <-> 1 < count_occ string_dec labels n) ->
  forall (types : list (string * field_dtype)) (seen : list string),
    stage done seen types = resolver_spec_from labels seen types.
Proof.
  intros Hiff. induction types as [|[n dt] rest IH]; intros seen; simpl;
    [reflexivity|].
  rewrite IH. f_equal. f_equal.
  destruct (existsb (String.eqb n) done) eqn:Hm,
           (1 <? count_occ string_dec labels n) eqn:Hc; try reflexivity.
  - apply mem_In, Hiff, Nat.ltb_lt in Hm. congruence.
  - apply Nat.ltb_lt, Hiff, mem_In in Hc. congruence.
Qed.

(** As long as no label reads as a duplicated label with a tail, the
    loop of [mkunique] computes the resolver of the specification. *)
Lemma mkunique_resolver_spec (types : list (string * field_dtype)) :
  tails_fresh (map fst types) ->
  mkunique types = resolver_spec types.
Proof.
  intros Hfresh. rewrite mkunique_stage by assumption.
  apply stage_resolver_spec. intros n.
  rewrite app_nil_r, <- in_rev. apply duplicates_of_iff.
Qed.

(** Labels without an opening bracket are a case of [tails_fresh]. *)
Lemma tails_fresh_no_paren (labels : list string) :
  forallb (fun l => negb (mem_char "("%char l)) labels = true ->
  tails_fresh labels.
Proof.
  intros Hall d k _ Hin.
  rewrite forallb_forall in Hall. specialize (Hall _ Hin).
  rewrite mem_char_app in Hall. unfold tail_format in Hall. simpl in Hall.
  rewrite orb_true_r in Hall. discriminate.
Qed.

Lemma mkunique_NoDup (types : list (string * field_dtype)) :
  tails_fresh (map fst types) ->
  List.NoDup (map fst (mkunique types)).
Proof.
  intros Hfresh. rewrite mkunique_stage by assumption.
  apply (stage_NoDup _ (map fst types)).
  - intros n Hn. rewrite app_nil_r, <- in_rev, duplicates_of_iff in Hn. lia.
  - intros n k Hn. rewrite app_nil_r, <- in_rev, duplicates_of_iff in Hn.
    apply Hfresh, Hn.
  - intros x. simpl. lia.
Qed.

Lemma mkunique_nonempty (types : list (string * field_dtype)) :
  tails_fresh (map fst types) ->
  (forall n, In n (map fst types) -> n <> ""%string) ->
  forall x, In x (map fst (mkunique types)) -> x <> ""%string.
Proof.
  intros Hfresh Hne x. rewrite mkunique_stage by assumption. intros Hin.
  apply stage_In in Hin as [m [Hm [[_ ->]|[_ [c [_ ->]]]]]]; [auto|].
  apply append_nonempty. auto.
Qed.

Lemma mkunique_snd (types : list (string * field_dtype)) :
  map snd (mkunique types) = map snd types.
Proof.
  unfold mkunique. generalize (duplicates_of (map fst types)) as ds.
  intros ds. revert types.
  induction ds as [|d ds IH]; intros types; simpl; [reflexivity|].
  rewrite IH. apply retail_snd.
Qed.

Lemma mkunique_length (types : list (string * field_dtype)) :
  length (mkunique types) = length types.
Proof.
  rewrite <- (length_map snd (mkunique types)), mkunique_snd.
  apply length_map.
Qed.

(** The examples of the docstring and of the specification. *)
Example mkunique_TIME_2 :
  mkunique [("TIME", dt_scalar "i2"); ("TIME", dt_scalar "i4")]
  = [("TIME(0)", dt_scalar "i2"); ("TIME(1)", dt_scalar "i4")].
Proof. reflexivity. Qed.

Example mkunique_TIME_3 :
  mkunique [("TIME", dt_scalar "i2"); ("DEPT", dt_scalar "f4");
            ("TIME", dt_scalar "i4"); ("TIME", dt_scalar "f4")]
  = [("TIME(0)", dt_scalar "i2"); ("DEPT", dt_scalar "f4");
     ("TIME(1)", dt_scalar "i4"); ("TIME(2)", dt_scalar "f4")].
Proof. reflexivity. Qed.

(** C5, where the code departs from it: on the labels [A, A, A(0), A(0)]
    the turn for [A] makes the first label [A(0)], and the later turn for
    the duplicated label [A(0)] takes it for an occurrence of [A(0)]: it
    ends as [A(0)(0)], and the two labels [A(0)] get the tails [(1)] and
    [(2)].  The resolver the claim describes gives [A(0), A(1), A(0)(0),
    A(0)(1)]. *)
Theorem mkunique_retails_tailed_label :
  let types := [("A", dt_scalar "i2"); ("A", dt_scalar "i4");
                ("A(0)", dt_scalar "f4"); ("A(0)", dt_scalar "u1")] in
  mkunique types
  = [("A(0)(0)", dt_scalar "i2"); ("A(1)", dt_scalar "i4");
     ("A(0)(1)", dt_scalar "f4"); ("A(0)(2)", dt_scalar "u1")] /\
  resolver_spec types
  = [("A(0)", dt_scalar "i2"); ("A(1)", dt_scalar "i4");
     ("A(0)(0)", dt_scalar "f4"); ("A(0)(1)", dt_scalar "u1")] /\
  mkunique types <> resolver_spec types.
Proof.
  cbv zeta. split; [reflexivity|]. split; [reflexivity|].
  vm_compute. discriminate.
Qed.

End Resolver.

(** * numpy's structured dtype *)

Section Numpy.

Lemma np_field_name_nonempty (i : nat) (n : string) :
  n <> ""%string -> np_field_name i n = n.
Proof.
  intros Hn. unfold np_field_name. apply String.eqb_neq in Hn. now rewrite Hn.
Qed.

(** With no empty name, [np.dtype] returns the list it is given, or
    raises on a name that is entered twice. *)
Lemma np_dtype_fields_nonempty (types : list (string * field_dtype)) :
  (forall n, In n (map fst types) -> n <> ""%string) ->
  forall (i : nat) (seen : list string),
    (np_dtype_fields i seen types = ok types /\
     List.NoDup (map fst types) /\
     forall n, In n (map fst types) -> ~ In n seen) \/
    (exists n, np_dtype_fields i seen types
               = raise (ValueError_duplicate_field n) /\
               In n (map fst types) /\
               (In n seen \/
                (1 < count_occ string_dec (map fst types) n)%nat)).
Proof.
  induction types as [|[n dt] rest IH]; intros Hne i seen.
  - left. simpl. repeat split; [constructor|tauto].
  - cbn [np_dtype_fields]. cbv zeta.
    rewrite np_field_name_nonempty by (apply Hne; simpl; auto).
    destruct (existsb (String.eqb n) seen) eqn:Hm.
    + right. exists n. apply mem_In in Hm. simpl. auto.
    + apply mem_not_In in Hm.
      destruct (IH (fun m Hin => Hne m (or_intror Hin)) (S i) (n :: seen))
        as [[E [Hnd Hout]]|[m [E [Hin Hdup]]]].
      * left. rewrite E, rbind_ok. split; [reflexivity|]. split.
        -- simpl. constructor; [|exact Hnd].
           intros Hin. apply (Hout n Hin). simpl. auto.
        -- simpl. intros m [<-|Hin]; [exact Hm|].
           intros Hs. apply (Hout m Hin). simpl. auto.
      * right. exists m. rewrite E, rbind_raise.
        split; [reflexivity|]. split; [simpl; auto|].
        simpl. destruct (string_dec n m) as [->|Hnm].
        -- right. apply (count_occ_In string_dec) in Hin. lia.
        -- destruct Hdup as [[Hs|Hs]|Hc]; [congruence|auto|right; lia].
Qed.

(** Whatever the names, a dtype that is returned has pairwise distinct
    field names, and the field dtypes it was given, in order. *)
Lemma np_dtype_fields_sound (types : list (string * field_dtype)) :
  forall (i : nat) (seen : list string) (fields : frame_dtype),
    np_dtype_fields i seen types = ok fields ->
    List.NoDup (map fst fields) /\
    (forall n, In n (map fst fields) -> ~ In n seen) /\
    map snd fields = map snd types.
Proof.
  induction types as [|[n dt] rest IH]; intros i seen fields.
  - simpl. intros E. injection E as <-. simpl.
    repeat split; [constructor|tauto].
  - cbn [np_dtype_fields]. cbv zeta.
    destruct (existsb _ seen) eqn:Hm; [discriminate|].
    destruct (np_dtype_fields (S i) _ rest) as [e|fs] eqn:Hr; [discriminate|].
    rewrite rbind_ok. intros E. injection E as <-.
    apply mem_not_In in Hm. destruct (IH _ _ _ Hr) as [Hnd [Hout Hs]].
    simpl. repeat split.
    + constructor; [|exact Hnd]. intros Hin. apply (Hout _ Hin). simpl. auto.
    + intros m [<-|Hin]; [exact Hm|]. intros Hseen.
      apply (Hout m Hin). simpl. auto.
    + now rewrite Hs.
Qed.

Lemma np_dtype_fields_raises (types : list (string * field_dtype)) :
  forall (i : nat) (seen : list string) (e : exn),
    np_dtype_fields i seen types = raise e ->
    exists n, e = ValueError_duplicate_field n.
Proof.
  induction types as [|[n dt] rest IH]; intros i seen e.
  - discriminate.
  - cbn [np_dtype_fields]. cbv zeta.
    destruct (existsb _ seen); [intros E; injection E as <-; eauto|].
    destruct (np_dtype_fields (S i) _ rest) as [e'|fs] eqn:Hr.
    + rewrite rbind_raise. intros E. injection E as <-. eauto.
    + rewrite rbind_ok. discriminate.
Qed.

End Numpy.

(** * The builder and the orchestrator *)

Section Pipeline.

Variables reprc_f16 reprc_f32 reprc_f32low reprc_f32fix : Z.
Variables reprc_i8 reprc_i16 reprc_i32 reprc_byte reprc_string : Z.
Variable lis_sizeof_type : Z -> Z.
Variable dfs_formatstring : dfsr -> result string.
Variable read_data_records :
  string -> pyobject -> pyobject -> pyobject -> Z -> (Z -> ndarray) ->
  result ndarray.
Abbreviation spec_dtype := (spec_dtype reprc_f16 reprc_f32 reprc_f32low
  reprc_f32fix reprc_i8 reprc_i16 reprc_i32 reprc_byte reprc_string
  lis_sizeof_type).
Abbreviation spec_types := (spec_types reprc_f16 reprc_f32 reprc_f32low
  reprc_f32fix reprc_i8 reprc_i16 reprc_i32 reprc_byte reprc_string
  lis_sizeof_type).
Abbreviation dfsr_dtype := (dfsr_dtype reprc_f16 reprc_f32 reprc_f32low
  reprc_f32fix reprc_i8 reprc_i16 reprc_i32 reprc_byte reprc_string
  lis_sizeof_type).
Abbreviation curves := (curves reprc_f16 reprc_f32 reprc_f32low
  reprc_f32fix reprc_i8 reprc_i16 reprc_i32 reprc_byte reprc_string
  lis_sizeof_type dfs_formatstring read_data_records).

(** The pairs of the list comprehension follow the included channels. *)
Lemma spec_types_ok (chs : list spec_block) :
  forall types,
    spec_types chs = ok types ->
    Forall2 (fun ch t => fst t = mnemonic ch /\ spec_dtype ch = ok (snd t))
      (List.filter included chs) types.
Proof.
  induction chs as [|ch chs IH]; intros types; simpl.
  - intros E. injection E as <-. constructor.
  - destruct (included ch); [|apply IH].
    destruct (spec_dtype ch) as [e|dt] eqn:Hd; [discriminate|].
    rewrite rbind_ok.
    destruct (spec_types chs) as [e|ts]; [discriminate|].
    rewrite rbind_ok. intros E. injection E as <-.
    constructor; [simpl; auto|]. apply IH. reflexivity.
Qed.

Lemma spec_types_names (chs : list spec_block) (types : list (string * field_dtype)) :
  spec_types chs = ok types ->
  map fst types = map mnemonic (List.filter included chs).
Proof.
  intros E. apply spec_types_ok in E.
  induction E as [|ch t chs' ts [Hn _] _ IH]; simpl; congruence.
Qed.

Lemma spec_types_total (chs : list spec_block) :
  (forall ch, In ch (List.filter included chs) ->
              exists d, spec_dtype ch = ok d) ->
  exists types, spec_types chs = ok types.
Proof.
  induction chs as [|ch chs IH]; simpl; intros Hall; [eauto|].
  destruct (included ch) eqn:Hi.
  - destruct (Hall ch (or_introl eq_refl)) as [d ->].
    destruct IH as [ts ->]; [intros c Hc; apply Hall; simpl; auto|].
    eauto.
  - apply IH, Hall.
Qed.

Lemma spec_types_raise (chs : list spec_block) (e : exn) :
  spec_types chs = raise e ->
  exists ch, In ch (List.filter included chs) /\ spec_dtype ch = raise e.
Proof.
  induction chs as [|ch chs IH]; simpl; [discriminate|].
  destruct (included ch).
  - destruct (spec_dtype ch) as [e'|dt] eqn:Hd.
    + rewrite rbind_raise. intros E. injection E as <-.
      exists ch. simpl. auto.
    + rewrite rbind_ok. destruct (spec_types chs) as [e'|ts].
      * rewrite rbind_raise. intros E. injection E as <-.
        destruct IH as [c [Hc E]]; [reflexivity|]. exists c. simpl. auto.
      * rewrite rbind_ok. discriminate.
  - exact IH.
Qed.

(** [dfsr_dtype], run by hand. *)
Lemma dfsr_dtype_run (dfs : dfsr) (strict : bool) (tr : list event) :
  dfsr_dtype dfs strict tr =
  match spec_types (specs dfs) with
  | inl e => (raise e, tr)
  | inr types =>
      match np_dtype_struct types with
      | inr dtype => (ok dtype, tr)
      | inl exc =>
          match exn_class exc with
          | PyValueError =>
              let tr' := (tr ++ [ev_logging_error dfs exc])%list in
              if strict then (raise exc, tr')
              else (np_dtype_struct (mkunique types), tr')
          | _ => (raise exc, tr)
          end
      end
  end.
Proof.
  unfold dfsr_dtype, bind, lift, try_except_ValueError.
  destruct (spec_types (specs dfs)) as [e|types]; [reflexivity|].
  destruct (np_dtype_struct types) as [exc|dtype]; [|reflexivity].
  destruct (exn_class exc); try reflexivity.
  unfold emit, throw. destruct strict; reflexivity.
Qed.


Lemma dfsr_dtype_trace (dfs : dfsr) (strict : bool) (tr : list event) :
  snd (dfsr_dtype dfs strict tr) = tr \/
  exists exc, snd (dfsr_dtype dfs strict tr)
              = (tr ++ [ev_logging_error dfs exc])%list.
Proof.
  rewrite dfsr_dtype_run.
  destruct (spec_types (specs dfs)) as [e|types]; [auto|].
  destruct (np_dtype_struct types) as [exc|dtype]; [|auto].
  destruct (exn_class exc); auto.
  right. exists exc. destruct strict; reflexivity.
Qed.

(** What a returned layout is made of: one field per included channel,
    in order, with the dtype the translator gives the channel. *)
Lemma dfsr_dtype_fields (dfs : dfsr) (strict : bool) (tr tr' : list event)
    (dtype : frame_dtype) :
  dfsr_dtype dfs strict tr = (ok dtype, tr') ->
  List.NoDup (map fst dtype) /\
  map spec_dtype (List.filter included (specs dfs))
  = map (fun fld => ok (snd fld)) dtype.
Proof.
  rewrite dfsr_dtype_run.
  destruct (spec_types (specs dfs)) as [e|types] eqn:Ht; [discriminate|].
  assert (Hs : map spec_dtype (List.filter included (specs dfs))
               = map ok (map snd types)).
  { apply spec_types_ok in Ht.
    induction Ht as [|ch t chs' ts [_ Hd] _ IH]; simpl; congruence. }
  assert (Hfin : forall l, np_dtype_struct l = ok dtype ->
                           map snd l = map snd types ->
            List.NoDup (map fst dtype) /\
            map spec_dtype (List.filter included (specs dfs))
            = map (fun fld => ok (snd fld)) dtype).
  { intros l Hl Hsnd. apply np_dtype_fields_sound in Hl as [Hnd [_ Hm]].
    split; [exact Hnd|]. rewrite Hs, <- Hsnd, <- Hm, map_map. reflexivity. }
  destruct (np_dtype_struct types) as [exc|dt] eqn:Hn.
  - destruct (exn_class exc); try discriminate.
    destruct strict; [discriminate|]. cbv zeta. intros E.
    apply (Hfin (mkunique types)); [congruence|apply mkunique_snd].
  - intros E. injection E as -> _. apply (Hfin types); auto.
Qed.

(** C1, as the code has it: when every included channel translates, no
    included mnemonic is empty and some included mnemonic occurs twice,
    [strict=True] logs and raises numpy's duplicate-field [ValueError]
    (DuplicateFieldName) for a mnemonic that occurs twice; with
    [strict=False] a layout that is returned has pairwise distinct field
    names, and one is returned (the resolver's list, one field per
    included channel) when no included mnemonic reads as a duplicated
    mnemonic followed by a tail [(k)]. *)
Theorem dfsr_dtype_duplicates (dfs : dfsr) (tr : list event) :
  let chs := List.filter included (specs dfs) in
  let names := map mnemonic chs in
  (forall ch, In ch chs -> exists d, spec_dtype ch = ok d) ->
  (forall n, In n names -> n <> ""%string) ->
  ~ List.NoDup names ->
  (exists name,
      (1 < count_occ string_dec names name)%nat /\
      dfsr_dtype dfs true tr
      = (raise (ValueError_duplicate_field name),
         (tr ++ [ev_logging_error dfs (ValueError_duplicate_field name)])%list)
      /\ kind_of (ValueError_duplicate_field name) = Some DuplicateFieldName)
  /\
  (forall fields tr',
      dfsr_dtype dfs false tr = (ok fields, tr') ->
      List.NoDup (map fst fields))
  /\
  (tails_fresh names ->
   exists fields tr',
     dfsr_dtype dfs false tr = (ok fields, tr') /\
     List.NoDup (map fst fields) /\
     length fields = length chs).
Proof.
  intros chs names Hall Hne Hdup.
  destruct (spec_types_total _ Hall) as [types Ht].
  pose proof (spec_types_names _ _ Ht) as Hnames. fold chs names in Hnames.
  rewrite <- Hnames in Hne, Hdup.
  split; [|split].
  - destruct (np_dtype_fields_nonempty types Hne 0 [])
      as [[_ [Hnd _]]|[n [E [Hin Hc]]]]; [contradiction|].
    exists n. destruct Hc as [[]|Hc]. rewrite <- Hnames.
    split; [exact Hc|]. split; [|reflexivity].
    rewrite dfsr_dtype_run. unfold ok in Ht. rewrite Ht.
    unfold np_dtype_struct. rewrite E. reflexivity.
  - intros fields tr' E. apply dfsr_dtype_fields in E. exact (proj1 E).
  - rewrite <- Hnames. intros Hfresh.
    destruct (np_dtype_fields_nonempty types Hne 0 [])
      as [[_ [Hnd _]]|[n [E [Hin Hc]]]]; [contradiction|].
    rewrite dfsr_dtype_run. unfold ok in Ht. rewrite Ht.
    unfold np_dtype_struct. rewrite E. cbn [exn_class raise]. cbv zeta iota.
    pose proof (mkunique_NoDup types Hfresh) as Hu.
    pose proof (mkunique_nonempty types Hfresh Hne) as Hune.
    destruct (np_dtype_fields_nonempty (mkunique types) Hune 0 [])
      as [[E' _]|[m [_ [_ [[]|Hc']]]]].
    + rewrite E'. eexists _, _. split; [reflexivity|]. split; [exact Hu|].
      rewrite mkunique_length.
      unfold chs. rewrite <- (length_map fst types), Hnames.
      unfold names. apply length_map.
    + exfalso. apply (NoDup_count_occ string_dec) with (x := m) in Hu. lia.
Qed.


(** ** The orchestrator *)

(** [curves], run by hand: the two guards, the format string, the
    layout, and only then the engine. *)
Lemma curves_run (f : logical_file) (dfs : dfsr) (strict skip_fast : bool)
    (tr : list event) :
  curves f dfs strict skip_fast tr =
  if existsb depth_mode_entry (entries dfs)
  then (raise (NotImplementedError depth_mode_msg), tr)
  else if existsb fast_channel (specs dfs) && negb skip_fast
  then (raise (NotImplementedError fast_channel_msg), tr)
  else
    match dfs_formatstring dfs with
    | inl e => (raise e, tr)
    | inr fmt =>
        match dfsr_dtype dfs strict tr with
        | (inl e, tr') => (raise e, tr')
        | (inr dtype, tr') =>
            (read_data_records fmt (io f) (index f) (info dfs)
               (itemsize dtype) (fun size => np_empty size dtype),
             (tr' ++ [engine_call f dfs fmt dtype])%list)
        end
    end.
Proof.
  unfold curves.
  destruct (existsb depth_mode_entry (entries dfs)); [reflexivity|].
  destruct (existsb fast_channel (specs dfs) && negb skip_fast);
    [reflexivity|].
  unfold bind, lift, emit.
  destruct (dfs_formatstring dfs) as [e|fmt]; [reflexivity|].
  destruct (dfsr_dtype dfs strict tr) as [[e|dtype] tr']; reflexivity.
Qed.

Lemma engine_calls_app (tr tr' : list event) :
  engine_calls (tr ++ tr') = (engine_calls tr ++ engine_calls tr')%list.
Proof. apply List.filter_app. Qed.

Lemma dfsr_dtype_engine_calls (dfs : dfsr) (strict : bool) (tr : list event) :
  engine_calls (snd (dfsr_dtype dfs strict tr)) = engine_calls tr.
Proof.
  destruct (dfsr_dtype_trace dfs strict tr) as [->|[exc ->]]; [reflexivity|].
  rewrite engine_calls_app. simpl. apply app_nil_r.
Qed.

Lemma included_slow (ch : spec_block) :
  included ch = true ->
  samples ch = 1 /\ 0 < reserved_size ch /\ fast_channel ch = false.
Proof.
  unfold included, fast_channel. intros H.
  apply andb_true_iff in H as [Hr Hs].
  apply Z.ltb_lt in Hr. apply Z.eqb_eq in Hs. rewrite Hs. auto.
Qed.

(** C6, as the code has it: on a DFSR with a channel of [samples > 1]
    and without a depth-recording-mode entry (type 13, value 1),
    [skip_fast=False] raises the fast-channel [NotImplementedError]
    (FastChannelsPresent) and leaves the trace alone; with
    [skip_fast=True], once the format string and the layout are built,
    the engine is called with that layout, whose fields are, position by
    position, the translations of the channels with [reserved_size > 0]
    and [samples == 1] in their order in the DFSR, under the channels'
    mnemonics when [strict] holds and none is empty; no channel with
    [samples > 1] is among them. *)
Theorem curves_fast_channels (f : logical_file) (dfs : dfsr) (strict : bool)
    (tr : list event) :
  existsb fast_channel (specs dfs) = true ->
  existsb depth_mode_entry (entries dfs) = false ->
  (curves f dfs strict false tr
   = (raise (NotImplementedError fast_channel_msg), tr) /\
   kind_of (NotImplementedError fast_channel_msg) = Some FastChannelsPresent)
  /\
  (forall fmt dtype tr',
      dfs_formatstring dfs = ok fmt ->
      dfsr_dtype dfs strict tr = (ok dtype, tr') ->
      let chs := List.filter included (specs dfs) in
      curves f dfs strict true tr
      = (read_data_records fmt (io f) (index f) (info dfs) (itemsize dtype)
           (fun size => np_empty size dtype),
         (tr' ++ [engine_call f dfs fmt dtype])%list) /\
      length dtype = length chs /\
      map spec_dtype chs = map (fun fld => ok (snd fld)) dtype /\
      (strict = true ->
       (forall ch, In ch chs -> mnemonic ch <> ""%string) ->
       map fst dtype = map mnemonic chs) /\
      (forall ch, In ch chs ->
                  samples ch = 1 /\ 0 < reserved_size ch /\
                  fast_channel ch = false)).
Proof.
  intros Hfast Hdepth. split.
  - split; [|reflexivity]. rewrite curves_run, Hdepth, Hfast. reflexivity.
  - intros fmt dtype tr' Hfmt Hd chs.
    pose proof (dfsr_dtype_fields _ _ _ _ _ Hd) as [_ Hmap]. fold chs in Hmap.
    split; [|split; [|split; [|split]]].
    + rewrite curves_run, Hdepth, andb_false_r. unfold ok in Hfmt, Hd.
      rewrite Hfmt, Hd. reflexivity.
    + apply (f_equal (@length _)) in Hmap. rewrite !length_map in Hmap.
      congruence.
    + exact Hmap.
    + intros -> Hne. rewrite dfsr_dtype_run in Hd.
      destruct (spec_types (specs dfs)) as [e|types] eqn:Ht; [discriminate|].
      pose proof (spec_types_names _ _ Ht) as Hn. fold chs in Hn.
      assert (Hne' : forall n, In n (map fst types) -> n <> ""%string).
      { intros n Hin. rewrite Hn in Hin. apply in_map_iff in Hin.
        destruct Hin as [ch [<- Hin]]. auto. }
      unfold np_dtype_struct in Hd.
      destruct (np_dtype_fields_nonempty types Hne' 0 [])
        as [[E _]|[n [E _]]]; rewrite E in Hd.
      * injection Hd as <- _. exact Hn.
      * discriminate.
    + intros ch Hin. apply filter_In in Hin as [_ Hin].
      apply included_slow, Hin.
Qed.

(** C8: when a validation fails (a depth-recording-mode entry, a fast
    channel without [skip_fast], a format string that cannot be built,
    or a layout that [dfsr_dtype] refuses, be it for an unsupported
    code, a reserved size that is no multiple of the width or a
    duplicated mnemonic), [curves] raises and the trace holds no new
    call into the engine; and a run whose trace does hold a new call has
    passed both guards and built a layout with pairwise distinct names,
    which is the layout of that call, the last event of the run. *)
Theorem curves_validates_first (f : logical_file) (dfs : dfsr)
    (strict skip_fast : bool) (tr : list event) :
  let run := curves f dfs strict skip_fast tr in
  ((existsb depth_mode_entry (entries dfs) = true \/
    (existsb fast_channel (specs dfs) = true /\ skip_fast = false) \/
    (exists e, dfs_formatstring dfs = raise e) \/
    (exists e tr', dfsr_dtype dfs strict tr = (raise e, tr'))) ->
   exists e, fst run = raise e /\ engine_calls (snd run) = engine_calls tr)
  /\
  (engine_calls (snd run) <> engine_calls tr ->
   exists fmt dtype tr',
     existsb depth_mode_entry (entries dfs) = false /\
     existsb fast_channel (specs dfs) && negb skip_fast = false /\
     dfs_formatstring dfs = ok fmt /\
     dfsr_dtype dfs strict tr = (ok dtype, tr') /\
     List.NoDup (map fst dtype) /\
     snd run = (tr' ++ [engine_call f dfs fmt dtype])%list).
Proof.
  intros run. unfold run. rewrite curves_run.
  pose proof (dfsr_dtype_engine_calls dfs strict tr) as Hcalls.
  destruct (existsb depth_mode_entry (entries dfs)) eqn:Hdepth.
  { split; [eauto|]. simpl. congruence. }
  destruct (existsb fast_channel (specs dfs) && negb skip_fast) eqn:Hfast.
  { split; [eauto|]. simpl. congruence. }
  destruct (dfs_formatstring dfs) as [e|fmt] eqn:Hfmt.
  { split; [eauto|]. simpl. congruence. }
  destruct (dfsr_dtype dfs strict tr) as [[e|dtype] tr'] eqn:Hd.
  { split; [eauto|]. simpl in *. congruence. }
  split.
  - intros [H|[[H1 H2]|[[e H]|[e [tr'' H]]]]]; try discriminate.
    rewrite H1, H2 in Hfast. discriminate.
  - intros _. exists fmt, dtype, tr'.
    pose proof (dfsr_dtype_fields _ _ _ _ _ Hd) as [Hnd _].
    repeat split; auto.
Qed.

(** C10, as the code has it: when the filter excludes every channel,
    [dfsr_dtype] returns the layout without fields, of byte width 0, in
    either mode and without logging; and when moreover the DFSR has no
    depth-recording-mode entry (type 13, value 1) and its format string
    is built, [curves] with [skip_fast=True] calls the engine with that
    layout and width 0. *)
Theorem curves_empty_layout (f : logical_file) (dfs : dfsr) (strict : bool)
    (tr : list event) :
  (forall ch, In ch (specs dfs) -> included ch = false) ->
  dfsr_dtype dfs strict tr = (ok [], tr) /\
  length (@nil (string * field_dtype)) = 0%nat /\
  itemsize [] = 0 /\
  (forall fmt,
      existsb depth_mode_entry (entries dfs) = false ->
      dfs_formatstring dfs = ok fmt ->
      curves f dfs strict true tr
      = (read_data_records fmt (io f) (index f) (info dfs) 0
           (fun size => np_empty size []),
         (tr ++ [engine_call f dfs fmt []])%list)).
Proof.
  intros Hex.
  assert (Ht : spec_types (specs dfs) = ok []).
  { induction (specs dfs) as [|ch chs IH]; [reflexivity|]. simpl.
    rewrite (Hex ch) by (simpl; auto). apply IH.
    intros c Hc. apply Hex. simpl. auto. }
  assert (Hd : dfsr_dtype dfs strict tr = (ok [], tr)).
  { rewrite dfsr_dtype_run. unfold ok in Ht. rewrite Ht. reflexivity. }
  repeat split; [exact Hd|].
  intros fmt Hdepth Hfmt. rewrite curves_run, Hdepth, andb_false_r.
  unfold ok in Hfmt, Hd. rewrite Hfmt, Hd. reflexivity.
Qed.

End Pipeline.


(** * Further properties of the translator *)

Section TranslatorAnySamples.

Variables reprc_f16 reprc_f32 reprc_f32low reprc_f32fix : Z.
Variables reprc_i8 reprc_i16 reprc_i32 reprc_byte reprc_string : Z.
Variable lis_sizeof_type : Z -> Z.
Abbreviation nptype_getitem := (nptype_getitem reprc_f16 reprc_f32
  reprc_f32low reprc_f32fix reprc_i8 reprc_i16 reprc_i32 reprc_byte
  reprc_string).
Abbreviation spec_dtype := (spec_dtype reprc_f16 reprc_f32 reprc_f32low
  reprc_f32fix reprc_i8 reprc_i16 reprc_i32 reprc_byte reprc_string
  lis_sizeof_type).

Lemma truediv_ints (r : Z) (p : positive) :
  truediv (inject_Z r) (inject_Z (Z.pos p)) = ok (r * 1 # p)%Q.
Proof. reflexivity. Qed.

Lemma truediv_frac (a : Z) (d : positive) (w : Z) :
  truediv (a # d) (inject_Z w) =
  if w =? 0 then raise ZeroDivisionError
  else ok (a * Z.sgn w # d * Z.to_pos (Z.abs w))%Q.
Proof.
  unfold truediv, Qeq_bool. simpl. rewrite Z.mul_1_r.
  destruct w as [|q|q]; reflexivity.
Qed.

Lemma frac_mod1 (a : Z) (d : positive) :
  mod1_nonzero (a # d) = negb (a mod Z.pos d =? 0).
Proof. reflexivity. Qed.

Lemma frac_eq_1 (a : Z) (d : positive) :
  Qeq_bool (a # d) 1 = (a =? Z.pos d).
Proof.
  unfold Qeq_bool. simpl. rewrite Z.mul_1_r. reflexivity.
Qed.

Lemma divides_signed (r s w : Z) :
  0 < s -> w <> 0 ->
  ((r * 1 * Z.sgn w) mod (s * Z.abs w) =? 0) = (r mod (s * w) =? 0).
Proof.
  intros Hs Hw.
  destruct (Z.eqb_spec ((r * 1 * Z.sgn w) mod (s * Z.abs w)) 0) as [E|E];
    destruct (Z.eqb_spec (r mod (s * w)) 0) as [F|F]; try reflexivity;
    exfalso.
  - apply F. apply Z.mod_divide in E; [|nia]. apply Z.mod_divide; [nia|].
    destruct E as [k Hk]. destruct w as [|q|q]; [congruence| |].
    + exists k. simpl in Hk. lia.
    + exists k. simpl in Hk. change (Z.abs (Z.neg q)) with (Z.pos q) in Hk.
      nia.
  - apply E. apply Z.mod_divide in F; [|nia]. apply Z.mod_divide; [nia|].
    destruct F as [k Hk]. destruct w as [|q|q]; [congruence| |].
    + exists k. simpl. lia.
    + exists k. simpl. change (Z.abs (Z.neg q)) with (Z.pos q). nia.
Qed.

(** [spec_dtype] in integer arithmetic: once [samples >= 1], each test on
    a float is a divisibility test on the integers it was made from. *)
Lemma spec_dtype_integer (spec : spec_block) :
  1 <= samples spec ->
  spec_dtype spec =
  let r := reserved_size spec in
  let s := samples spec in
  let w := lis_sizeof_type (reprc spec) in
  if negb (r mod s =? 0) then raise ValueError_reserve_samples
  else if reprc spec =? reprc_string then
    try! t := nptype_getitem (reprc spec) in np_dtype t
  else if w =? 0 then raise ZeroDivisionError
  else if negb (r mod (s * w) =? 0) then raise ValueError_reserved_sizeof
  else if r =? s * w then
    try! t := nptype_getitem (reprc spec) in np_dtype t
  else
    try! t := nptype_getitem (reprc spec) in np_dtype_sub t (r / (s * w)).
Proof.
  intros Hs. unfold spec_dtype, lis_reprc. cbv zeta.
  destruct (samples spec) as [|p|p] eqn:Es; try lia.
  destruct (Z.ltb_spec (Z.pos p) 1) as [Hlt|_]; [lia|].
  rewrite truediv_ints, rbind_ok, frac_mod1, Z.mul_1_r.
  destruct (Z.eqb_spec (reserved_size spec mod Z.pos p) 0) as [Hm|Hm];
    cbn [negb]; [|reflexivity].
  destruct (reprc spec =? reprc_string); [reflexivity|].
  rewrite truediv_frac.
  set (w := lis_sizeof_type (reprc spec)).
  destruct (Z.eqb_spec w 0) as [Hw|Hw]; [reflexivity|].
  rewrite rbind_ok, frac_mod1, frac_eq_1.
  assert (Hpos : Z.pos (p * Z.to_pos (Z.abs w)) = Z.pos p * Z.abs w).
  { rewrite Pos2Z.inj_mul, Z2Pos.id by lia. reflexivity. }
  rewrite Hpos.
  replace (reserved_size spec * Z.sgn w)
    with (reserved_size spec * 1 * Z.sgn w) by lia.
  rewrite divides_signed by lia.
  destruct (Z.eqb_spec (reserved_size spec mod (Z.pos p * w)) 0) as [Hd|Hd];
    cbn [negb]; [|reflexivity].
  assert (He : (reserved_size spec * 1 * Z.sgn w =? Z.pos p * Z.abs w)
               = (reserved_size spec =? Z.pos p * w)).
  { destruct (Z.eqb_spec (reserved_size spec) (Z.pos p * w));
      destruct (Z.eqb_spec (reserved_size spec * 1 * Z.sgn w)
                           (Z.pos p * Z.abs w)); try reflexivity; exfalso;
      destruct w as [|q|q]; simpl in *; try congruence; lia. }
  rewrite He.
  destruct (reserved_size spec =? Z.pos p * w); [reflexivity|].
  destruct (nptype_getitem (reprc spec)) as [e|t]; [reflexivity|].
  rewrite !rbind_ok. f_equal.
  unfold int_of. simpl Qnum. simpl Qden. rewrite Hpos.
  apply Z.mod_divide in Hd; [|nia]. destruct Hd as [k Hk]. rewrite Hk.
  rewrite Z.div_mul by nia.
  destruct w as [|q|q]; [congruence| |]; simpl Z.sgn; simpl Z.abs.
  - replace (k * (Z.pos p * Z.pos q) * 1 * 1) with (k * (Z.pos p * Z.pos q))
      by lia. apply Z.quot_mul. lia.
  - replace (k * (Z.pos p * Z.neg q) * 1 * -1) with (k * (Z.pos p * Z.pos q))
      by lia. apply Z.quot_mul. lia.
Qed.


(** X1: with [samples >= 1], a reserved size that is no multiple of the
    sample count is refused with the [ValueError] of the first
    divisibility check, before the code is looked at: the string code, a
    code of width zero and a code that [nptype] does not know are
    refused in the same way. *)
Theorem spec_dtype_samples_not_dividing (spec : spec_block) :
  1 <= samples spec ->
  reserved_size spec mod samples spec <> 0 ->
  spec_dtype spec = raise ValueError_reserve_samples.
Proof.
  intros Hs Hm. rewrite spec_dtype_integer by assumption. cbv zeta.
  apply Z.eqb_neq in Hm. rewrite Hm. reflexivity.
Qed.

(** X2: the entries of a field are counted per sample.  With
    [samples >= 1], a positive reserved size that is a multiple of
    [samples * w], for a non-string code of [nptype] with positive width
    [w], gives a field of [reserved_size / (samples * w)] elements: the
    scalar dtype when that is one element, the array dtype otherwise. *)
Theorem spec_dtype_per_sample (spec : spec_block) (t : string) (w : Z) :
  1 <= samples spec ->
  0 < reserved_size spec ->
  reprc spec <> reprc_string ->
  nptype_getitem (reprc spec) = ok t ->
  lis_sizeof_type (reprc spec) = w ->
  0 < w ->
  reserved_size spec mod (samples spec * w) = 0 ->
  exists d : field_dtype,
    spec_dtype spec = ok d /\
    d = (if reserved_size spec =? samples spec * w then dt_scalar t
         else dt_subarray t (reserved_size spec / (samples spec * w))) /\
    element_type d = t /\
    element_count d * (samples spec * w) = reserved_size spec.
Proof.
  intros Hs Hr Hc Ht Hw Hpos Hm. subst w.
  set (w := lis_sizeof_type (reprc spec)) in *.
  set (s := samples spec) in *. set (r := reserved_size spec) in *.
  assert (Hk : exists k, r = k * (s * w)).
  { apply Z.mod_divide in Hm; [exact Hm|nia]. }
  destruct Hk as [k Hk].
  assert (Hrs : r mod s = 0).
  { apply Z.mod_divide; [lia|]. exists (k * w). lia. }
  rewrite spec_dtype_integer by assumption. cbv zeta. fold w s r.
  rewrite Hrs, Hm, Ht, rbind_ok. cbn [Z.eqb negb].
  apply Z.eqb_neq in Hc. rewrite Hc.
  destruct (Z.eqb_spec w 0) as [E|_]; [lia|].
  assert (Hq : r / (s * w) = k) by (rewrite Hk; apply Z.div_mul; nia).
  destruct (Z.eqb_spec r (s * w)) as [E|E].
  - eexists. repeat split. cbn [element_count]. lia.
  - unfold np_dtype_sub. rewrite Hq.
    destruct (Z.ltb_spec k 0) as [Hneg|_]; [nia|].
    eexists. repeat split. cbn [element_count]. lia.
Qed.

(** X3: what a returned dtype says about the channel.  When
    [spec_dtype] returns, [samples >= 1] divides the reserved size, and
    either the code is the string code and the dtype is the scalar
    object dtype, or the code is a key of [nptype] with a non-zero
    width, the dtype has the type string of that key, and its element
    count times [samples] times the width is the reserved size; a
    positive reserved size then has a positive width and at least one
    element. *)
Theorem spec_dtype_sound (spec : spec_block) (d : field_dtype) :
  spec_dtype spec = ok d ->
  1 <= samples spec /\
  reserved_size spec mod samples spec = 0 /\
  ((reprc spec = reprc_string /\ d = dt_scalar "O") \/
   (reprc spec <> reprc_string /\
    lis_sizeof_type (reprc spec) <> 0 /\
    nptype_getitem (reprc spec) = ok (element_type d) /\
    0 <= element_count d /\
    element_count d * (samples spec * lis_sizeof_type (reprc spec))
    = reserved_size spec /\
    (0 < reserved_size spec ->
     0 < lis_sizeof_type (reprc spec) /\ 1 <= element_count d))).
Proof.
  intros H.
  assert (Hs : 1 <= samples spec).
  { unfold spec_dtype in H.
    destruct (Z.ltb_spec (samples spec) 1); [discriminate|assumption]. }
  split; [exact Hs|].
  rewrite spec_dtype_integer in H by assumption. cbv zeta in H.
  set (w := lis_sizeof_type (reprc spec)) in *.
  set (s := samples spec) in *. set (r := reserved_size spec) in *.
  destruct (Z.eqb_spec (r mod s) 0) as [Hrs|_]; [|discriminate].
  split; [exact Hrs|]. cbn [negb] in H.
  destruct (Z.eqb_spec (reprc spec) reprc_string) as [Hc|Hc].
  { left. split; [exact Hc|]. rewrite Hc, nptype_string, rbind_ok in H.
    injection H as <-. reflexivity. }
  right. split; [exact Hc|].
  destruct (Z.eqb_spec w 0) as [|Hw]; [discriminate|].
  split; [exact Hw|].
  destruct (Z.eqb_spec (r mod (s * w)) 0) as [Hm|_]; [|discriminate].
  cbn [negb] in H.
  apply Z.mod_divide in Hm; [|nia]. destruct Hm as [k Hk].
  assert (Hq : r / (s * w) = k) by (rewrite Hk; apply Z.div_mul; nia).
  destruct (nptype_getitem (reprc spec)) as [e|t];
    [destruct (r =? s * w); discriminate|].
  rewrite !rbind_ok in H.
  destruct (Z.eqb_spec r (s * w)) as [E|E].
  - injection H as <-. cbn [element_type element_count].
    repeat split; try lia; nia.
  - unfold np_dtype_sub in H. rewrite Hq in H.
    destruct (Z.ltb_spec k 0) as [|Hk0]; [discriminate|].
    injection H as <-. cbn [element_type element_count].
    repeat split; try lia; nia.
Qed.

Lemma spec_dtype_raise_inv (spec : spec_block) (e : exn) :
  spec_dtype spec = raise e ->
  exn_class e = PyValueError \/
  (e = KeyError (reprc spec) /\
   nptype_getitem (reprc spec) = raise (KeyError (reprc spec))) \/
  (e = ZeroDivisionError /\ reprc spec <> reprc_string /\
   lis_sizeof_type (reprc spec) = 0).
Proof.
  intros H.
  assert (Hkey : forall e', nptype_getitem (reprc spec) = raise e' ->
                            e' = KeyError (reprc spec)).
  { intros e'. unfold nptype_getitem.
    destruct (nptype _ _ _ _ _ _ _ _ _ !! reprc spec); [discriminate|].
    intros E. injection E as <-. reflexivity. }
  destruct (Z.ltb_spec (samples spec) 1) as [Hlt|Hs].
  { unfold spec_dtype in H.
    destruct (Z.ltb_spec (samples spec) 1); [|lia].
    injection H as <-. left. reflexivity. }
  rewrite spec_dtype_integer in H by assumption. cbv zeta in H.
  destruct (negb _); [injection H as <-; left; reflexivity|].
  destruct (Z.eqb_spec (reprc spec) reprc_string) as [Hc|Hc].
  { rewrite Hc, nptype_string, rbind_ok in H. discriminate. }
  destruct (Z.eqb_spec (lis_sizeof_type (reprc spec)) 0) as [Hw|Hw].
  { injection H as <-. right. right. auto. }
  destruct (negb _); [injection H as <-; left; reflexivity|].
  destruct (nptype_getitem (reprc spec)) as [e'|t] eqn:G.
  - rewrite (Hkey e' eq_refl) in *.
    destruct (reserved_size spec =? _); injection H as <-;
      right; left; split; reflexivity.
  - destruct (reserved_size spec =? _); rewrite rbind_ok in H;
      [discriminate|].
    unfold np_dtype_sub in H. destruct (_ <? 0); [|discriminate].
    injection H as <-. left. reflexivity.
Qed.

(** X4: the exceptions of [spec_dtype].  It raises a [ValueError], or
    [KeyError] for its own code when that is no key of [nptype], or
    [ZeroDivisionError] when the width of a non-string code is zero; it
    never raises [NotImplementedError], also not for a code that is
    not supported. *)
Theorem spec_dtype_exceptions (spec : spec_block) (e : exn) :
  spec_dtype spec = raise e ->
  (exn_class e = PyValueError \/
   (e = KeyError (reprc spec) /\
    nptype_getitem (reprc spec) = raise (KeyError (reprc spec))) \/
   (e = ZeroDivisionError /\ reprc spec <> reprc_string /\
    lis_sizeof_type (reprc spec) = 0)) /\
  exn_class e <> PyNotImplementedError.
Proof.
  intros H. pose proof (spec_dtype_raise_inv spec e H) as Hcases.
  split; [exact Hcases|].
  destruct Hcases as [V|[[-> _]|[-> _]]]; [congruence|discriminate..].
Qed.

(** X5: a non-string code whose width is zero ends in
    [ZeroDivisionError]: with [samples >= 1] dividing the reserved size,
    the division by the width comes before the code is looked up in
    [nptype], so it makes no difference whether the code is a key. *)
Theorem spec_dtype_zero_width (spec : spec_block) :
  1 <= samples spec ->
  reserved_size spec mod samples spec = 0 ->
  reprc spec <> reprc_string ->
  lis_sizeof_type (reprc spec) = 0 ->
  spec_dtype spec = raise ZeroDivisionError.
Proof.
  intros Hs Hm Hc Hw. rewrite spec_dtype_integer by assumption. cbv zeta.
  apply Z.eqb_neq in Hc. rewrite Hm, Hc, Hw. reflexivity.
Qed.

End TranslatorAnySamples.

(** * Further properties of the resolver *)

Section ResolverMore.

Local Open Scope nat_scope.

Lemma string_app_assoc (a b c : string) :
  ((a ++ b) ++ c)%string = (a ++ (b ++ c))%string.
Proof.
  induction a as [|x a IH]; [reflexivity|].
  change (String x ((a ++ b) ++ c) = String x (a ++ (b ++ c)))%string.
  now f_equal.
Qed.

Lemma string_app_empty (a b : string) :
  (a ++ b)%string = ""%string -> b = ""%string.
Proof. destruct a; simpl; [auto|discriminate]. Qed.

(** *** The counter keeps the order of first occurrence *)

Lemma keys_incr_order (x : string) (c : list (string * nat)) :
  map fst (counter_incr x c) =
  if existsb (String.eqb x) (map fst c) then map fst c
  else (map fst c ++ [x])%list.
Proof.
  induction c as [|[k n] c IH]; simpl; [reflexivity|].
  rewrite (String.eqb_sym x k).
  destruct (String.eqb k x); simpl; [reflexivity|].
  rewrite IH. destruct (existsb _ (map fst c)); reflexivity.
Qed.

Lemma first_occurrences_ext (seen seen' : list string) :
  (forall x, In x seen <-> In x seen') ->
  forall labels, first_occurrences seen labels = first_occurrences seen' labels.
Proof.
  intros Hiff labels. revert seen seen' Hiff.
  induction labels as [|x rest IH]; intros seen seen' Hiff; simpl;
    [reflexivity|].
  destruct (existsb (String.eqb x) seen) eqn:Hm,
           (existsb (String.eqb x) seen') eqn:Hm'.
  - apply IH, Hiff.
  - apply mem_In, Hiff, mem_In in Hm. congruence.
  - apply mem_In, Hiff, mem_In in Hm'. congruence.
  - f_equal. apply IH. intros y. simpl. rewrite Hiff. tauto.
Qed.

Lemma Counter_keys (labels : list string) :
  forall c : list (string * nat),
    map fst (fold_left (fun c x => counter_incr x c) labels c) =
    (map fst c ++ first_occurrences (map fst c) labels)%list.
Proof.
  induction labels as [|x rest IH]; intros c; simpl.
  - now rewrite app_nil_r.
  - rewrite IH, keys_incr_order.
    destruct (existsb (String.eqb x) (map fst c)); [reflexivity|].
    rewrite <- List.app_assoc. simpl. f_equal. f_equal.
    apply first_occurrences_ext. intros y.
    rewrite in_app_iff. simpl. tauto.
Qed.

Lemma filter_keys (f : string -> bool) (c : list (string * nat)) :
  (forall k n, In (k, n) c -> f k = (1 <? n)) ->
  map fst (List.filter (fun xc => 1 <? snd xc) c)
  = List.filter f (map fst c).
Proof.
  induction c as [|[k n] c IH]; intros Hf; simpl; [reflexivity|].
  rewrite (Hf k n) by (simpl; auto).
  destruct (1 <? n); simpl; rewrite IH; auto;
    intros k' n' Hin; apply Hf; simpl; auto.
Qed.

(** X6: [duplicates] holds the labels that occur more than once, each
    of them once, in the order in which they first occur in the list. *)
Theorem duplicates_of_first_occurrences (labels : list string) :
  duplicates_of labels
  = List.filter (fun x => 1 <? count_occ string_dec labels x)
      (first_occurrences [] labels) /\
  List.NoDup (duplicates_of labels) /\
  forall d, In d (duplicates_of labels)
            <-> 1 < count_occ string_dec labels d.
Proof.
  split; [|split; [apply duplicates_of_NoDup|apply duplicates_of_iff]].
  unfold duplicates_of, Counter.
  destruct (Counter_from labels [] (List.NoDup_nil _)) as [Hnd Hc].
  cbv zeta in Hnd, Hc.
  rewrite <- (app_nil_l (first_occurrences [] labels)).
  change (@nil string) with (map fst (@nil (string * nat))).
  rewrite <- Counter_keys. apply filter_keys.
  intros k n Hin. apply (cget_In _ _ _ Hnd) in Hin as [Hg _].
  rewrite Hc in Hg. simpl in Hg. now subst n.
Qed.


(** *** What the loop does to a label *)

Lemma string_app_empty_r (a : string) : (a ++ "")%string = a.
Proof.
  induction a as [|x a IH]; [reflexivity|].
  change (String x (a ++ "") = String x a)%string. now f_equal.
Qed.

Lemma retail_relabelled (d : string) (done : list string)
    (types curr : list (string * field_dtype)) :
  Forall2 (relabelled_after done) types curr ->
  forall tc, Forall2 (relabelled_after (d :: done)) types (retail d tc curr).
Proof.
  induction 1 as [|[n dt] [n' dt'] types curr [Hdt [suffix [Hn Hs]]] _ IH];
    intros tc; [constructor|].
  simpl in Hdt, Hn. subst dt' n'. cbn [retail].
  destruct (String.eqb_spec (n ++ suffix) d) as [E|E].
  - constructor; [|apply IH]. split; [reflexivity|].
    exists (suffix ++ tail_format tc)%string. cbn [fst].
    split; [apply string_app_assoc|]. split.
    + intros H. apply string_app_empty in H. discriminate H.
    + intros Hout. exfalso. apply Hout.
      destruct (in_dec string_dec n done) as [Hin|Hnin]; [right; exact Hin|].
      left. apply Hs in Hnin. subst suffix.
      now rewrite string_app_empty_r in E.
  - constructor; [|apply IH]. split; [reflexivity|].
    exists suffix. cbn [fst]. split; [reflexivity|]. split.
    + intros ->. rewrite string_app_empty_r in E.
      intros [Hd|Hin]; [congruence|]. now apply Hs in Hin.
    + intros Hout. apply Hs. intros Hin. apply Hout. right. exact Hin.
Qed.

Lemma turns_relabelled (types : list (string * field_dtype)) :
  forall (ds done : list string) (curr : list (string * field_dtype)),
    Forall2 (relabelled_after done) types curr ->
    Forall2 (relabelled_after (rev ds ++ done)%list) types
      (fold_left (fun types duplicate => retail duplicate 0 types) ds curr).
Proof.
  induction ds as [|d ds IH]; intros done curr H; [exact H|].
  cbn [fold_left rev]. rewrite <- List.app_assoc. simpl.
  apply IH. apply retail_relabelled, H.
Qed.

Lemma mkunique_relabelled (types : list (string * field_dtype)) :
  Forall2 (relabelled (map fst types)) types (mkunique types).
Proof.
  assert (H0 : Forall2 (relabelled_after []) types types).
  { induction types as [|[n dt] rest IH]; constructor; [|exact IH].
    split; [reflexivity|]. exists ""%string. cbn [fst].
    rewrite string_app_empty_r. simpl. tauto. }
  pose proof (turns_relabelled types (duplicates_of (map fst types)) [] types H0)
    as H.
  fold (mkunique types) in H. revert H. apply List.Forall2_impl.
  intros old new [Hdt [suffix [Hn Hs]]]. split; [exact Hdt|].
  exists suffix. split; [exact Hn|]. rewrite Hs.
  rewrite app_nil_r, <- in_rev, duplicates_of_iff. lia.
Qed.

Lemma relabelled_nonempty (labels : list string)
    (ts us : list (string * field_dtype)) :
  Forall2 (relabelled labels) ts us ->
  (forall n, In n (map fst ts) -> n <> ""%string) ->
  forall x, In x (map fst us) -> x <> ""%string.
Proof.
  induction 1 as [|[n dt] [n' dt'] ts us [_ [suffix [Hn _]]] _ IH];
    intros Hne x; simpl; [tauto|].
  simpl in Hn. intros [<-|Hin].
  - rewrite Hn. apply append_nonempty, Hne. simpl. auto.
  - apply IH; [|exact Hin]. intros m Hm. apply Hne. simpl. auto.
Qed.

Lemma mkunique_labels_nonempty (types : list (string * field_dtype)) :
  (forall n, In n (map fst types) -> n <> ""%string) ->
  forall x, In x (map fst (mkunique types)) -> x <> ""%string.
Proof.
  apply (relabelled_nonempty (map fst types)), mkunique_relabelled.
Qed.

Lemma Forall2_at {A B : Type} (R : A -> B -> Prop) (l : list A) (l' : list B) :
  Forall2 R l l' ->
  forall i a, nth_error l i = Some a ->
              exists b, nth_error l' i = Some b /\ R a b.
Proof.
  induction 1 as [|x y l l' Hxy _ IH]; intros [|i] a; simpl; try discriminate.
  - intros E. injection E as <-. eauto.
  - apply IH.
Qed.

(** C9: the resolver returns as many pairs as it is given, and the dtype
    at every position is the one of the input at that position; only
    labels change, and only those of duplicated labels: at every
    position the label of the output is the label of the input followed
    by a suffix that is empty exactly when the label occurs at most once
    in the input, so a pair whose label is not duplicated is returned as
    it is. *)
Theorem mkunique_frame (types : list (string * field_dtype)) :
  length (mkunique types) = length types /\
  map snd (mkunique types) = map snd types /\
  (forall i : nat,
      nth_error (map snd (mkunique types)) i = nth_error (map snd types) i) /\
  (forall (i : nat) (name : string) (dtype : field_dtype),
      nth_error types i = Some (name, dtype) ->
      (exists suffix : string,
          nth_error (mkunique types) i
          = Some ((name ++ suffix)%string, dtype) /\
          (suffix = ""%string
           <-> count_occ string_dec (map fst types) name <= 1)) /\
      (count_occ string_dec (map fst types) name <= 1 ->
       nth_error (mkunique types) i = Some (name, dtype)) /\
      (forall name',
          nth_error (mkunique types) i = Some (name', dtype) ->
          name' <> name ->
          1 < count_occ string_dec (map fst types) name)).
Proof.
  pose proof (mkunique_snd types) as Hs.
  split; [apply mkunique_length|]. split; [exact Hs|].
  split; [intros i; now rewrite Hs|].
  intros i name dtype Hi.
  destruct (Forall2_at _ _ _ (mkunique_relabelled types) i _ Hi)
    as [[n' dt'] [Hi' [Hdt [suffix [Hn Hsuf]]]]].
  simpl in Hdt, Hn. subst n' dt'. split; [|split].
  - exists suffix. split; assumption.
  - intros Hc. apply Hsuf in Hc. subst suffix.
    now rewrite string_app_empty_r in Hi'.
  - intros name' Hi'' Hne. rewrite Hi' in Hi''. injection Hi'' as <-.
    destruct (le_lt_dec (count_occ string_dec (map fst types) name) 1)
      as [Hc|Hc]; [|exact Hc].
    apply Hsuf in Hc. subst suffix.
    now rewrite string_app_empty_r in Hne.
Qed.

(** X7: at every position, [mkunique] keeps the dtype and appends a
    suffix to the label, and the suffix is empty exactly when the label
    occurs only once in the input: a label that occurs once is never
    touched, a label that occurs more than once is always changed, and
    no label loses a character.  This holds for every input. *)
Theorem mkunique_touches_duplicates_only
    (types : list (string * field_dtype)) (i : nat) (name : string)
    (dtype : field_dtype) :
  nth_error types i = Some (name, dtype) ->
  exists suffix : string,
    nth_error (mkunique types) i = Some ((name ++ suffix)%string, dtype) /\
    (suffix = ""%string
     <-> count_occ string_dec (map fst types) name <= 1).
Proof.
  intros Hi.
  destruct (Forall2_at _ _ _ (mkunique_relabelled types) i _ Hi)
    as [[n' dt'] [Hi' [Hdt [suffix [Hn Hs]]]]].
  simpl in Hdt, Hn. subst n' dt'. exists suffix. split; assumption.
Qed.

Lemma mkunique_id (types : list (string * field_dtype)) :
  List.NoDup (map fst types) -> mkunique types = types.
Proof.
  intros Hnd. unfold mkunique.
  destruct (duplicates_of (map fst types)) as [|d ds] eqn:E; [reflexivity|].
  assert (Hd : In d (duplicates_of (map fst types))) by (rewrite E; simpl; auto).
  apply duplicates_of_iff in Hd.
  apply (NoDup_count_occ string_dec) with (x := d) in Hnd. lia.
Qed.

(** X8: on a list whose labels are pairwise distinct [mkunique] changes
    nothing; so when its output has pairwise distinct labels, running it
    on that output again returns the same output. *)
Theorem mkunique_distinct_fixed (types : list (string * field_dtype)) :
  (List.NoDup (map fst types) -> mkunique types = types) /\
  (List.NoDup (map fst (mkunique types)) ->
   mkunique (mkunique types) = mkunique types).
Proof. split; intros H; apply mkunique_id, H. Qed.

(** X9: when no label reads as a duplicated label followed by a tail
    [(k)], the labels [mkunique] returns are pairwise distinct, and
    none is empty if none was. *)
Theorem mkunique_unique_labels (types : list (string * field_dtype)) :
  tails_fresh (map fst types) ->
  List.NoDup (map fst (mkunique types)) /\
  ((forall n, In n (map fst types) -> n <> ""%string) ->
   forall x, In x (map fst (mkunique types)) -> x <> ""%string).
Proof.
  intros Hfresh. split; [apply mkunique_NoDup, Hfresh|].
  apply mkunique_labels_nonempty.
Qed.

Lemma resolver_spec_at (labels : list string)
    (types : list (string * field_dtype)) :
  forall (seen : list string) (i : nat) (name : string) (dtype : field_dtype),
    nth_error types i = Some (name, dtype) ->
    nth_error (resolver_spec_from labels seen types) i
    = Some ((if 1 <? count_occ string_dec labels name
             then (name ++ tail_format
                     (count_occ string_dec seen name
                      + count_occ string_dec (firstn i (map fst types)) name))%string
             else name), dtype).
Proof.
  induction types as [|[n dt] rest IH]; intros seen [|i] name dtype; simpl;
    try discriminate.
  - intros E. injection E as <- <-. now rewrite Nat.add_0_r.
  - intros E. rewrite (IH _ _ _ _ E). simpl.
    destruct (1 <? _); [|reflexivity].
    destruct (string_dec n name); [|reflexivity].
    rewrite Nat.add_succ_r. reflexivity.
Qed.

(** X10: when no label reads as a duplicated label followed by a tail
    [(k)], [mkunique] is the resolver of the specification: the label at
    position [i] stays if it occurs only once, and otherwise gets the
    tail [(k)] where [k] counts its occurrences to the left of [i]. *)
Theorem mkunique_numbers_occurrences
    (types : list (string * field_dtype)) (i : nat) (name : string)
    (dtype : field_dtype) :
  tails_fresh (map fst types) ->
  nth_error types i = Some (name, dtype) ->
  mkunique types = resolver_spec types /\
  nth_error (mkunique types) i
  = Some ((if 1 <? count_occ string_dec (map fst types) name
           then (name ++ tail_format
                   (count_occ string_dec (firstn i (map fst types)) name))%string
           else name), dtype).
Proof.
  intros Hfresh Hi. pose proof (mkunique_resolver_spec types Hfresh) as E.
  split; [exact E|]. rewrite E. unfold resolver_spec.
  rewrite (resolver_spec_at _ _ [] i name dtype Hi). reflexivity.
Qed.

End ResolverMore.

(** * Further properties of the builder and of the orchestrator *)

Section PipelineMore.

Variables reprc_f16 reprc_f32 reprc_f32low reprc_f32fix : Z.
Variables reprc_i8 reprc_i16 reprc_i32 reprc_byte reprc_string : Z.
Variable lis_sizeof_type : Z -> Z.
Variable dfs_formatstring : dfsr -> result string.
Variable read_data_records :
  string -> pyobject -> pyobject -> pyobject -> Z -> (Z -> ndarray) ->
  result ndarray.
Abbreviation spec_dtype := (spec_dtype reprc_f16 reprc_f32 reprc_f32low
  reprc_f32fix reprc_i8 reprc_i16 reprc_i32 reprc_byte reprc_string
  lis_sizeof_type).
Abbreviation spec_types := (spec_types reprc_f16 reprc_f32 reprc_f32low
  reprc_f32fix reprc_i8 reprc_i16 reprc_i32 reprc_byte reprc_string
  lis_sizeof_type).
Abbreviation dfsr_dtype := (dfsr_dtype reprc_f16 reprc_f32 reprc_f32low
  reprc_f32fix reprc_i8 reprc_i16 reprc_i32 reprc_byte reprc_string
  lis_sizeof_type).
Abbreviation curves := (curves reprc_f16 reprc_f32 reprc_f32low
  reprc_f32fix reprc_i8 reprc_i16 reprc_i32 reprc_byte reprc_string
  lis_sizeof_type dfs_formatstring read_data_records).

Lemma spec_types_app (l1 l2 : list spec_block) :
  spec_types (l1 ++ l2) =
  try! t1 := spec_types l1 in
  try! t2 := spec_types l2 in
  ok (t1 ++ t2)%list.
Proof.
  induction l1 as [|ch l1 IH]; simpl.
  - unfold rbind, ok. destruct (spec_types l2); reflexivity.
  - destruct (included ch); [|exact IH].
    destruct (spec_dtype ch) as [e|dt]; [reflexivity|].
    rewrite IH. unfold rbind, ok.
    destruct (spec_types l1) as [e|t1]; [reflexivity|].
    destruct (spec_types l2); reflexivity.
Qed.

(** The channels the filter drops play no part. *)
Lemma spec_types_filter (chs : list spec_block) :
  spec_types (List.filter included chs) = spec_types chs.
Proof.
  induction chs as [|ch chs IH]; simpl; [reflexivity|].
  destruct (included ch) eqn:Hi; simpl; rewrite ?Hi, IH; reflexivity.
Qed.

(** X11: the channels that the filter drops play no part in the layout.
    Two DFSRs whose channels with [reserved_size > 0] and [samples == 1]
    are the same, in the same order, get the same layout or the same
    exception from [dfsr_dtype]: a dropped channel is not translated, so
    its code, size and mnemonic cannot make the call fail. *)
Theorem dfsr_dtype_ignores_excluded (dfs dfs' : dfsr) (strict : bool)
    (tr : list event) :
  List.filter included (specs dfs) = List.filter included (specs dfs') ->
  fst (dfsr_dtype dfs strict tr) = fst (dfsr_dtype dfs' strict tr).
Proof.
  intros Hsame.
  assert (E : spec_types (specs dfs) = spec_types (specs dfs')).
  { rewrite <- (spec_types_filter (specs dfs)), Hsame.
    apply spec_types_filter. }
  rewrite !dfsr_dtype_run, E.
  destruct (spec_types (specs dfs')) as [e|types]; [reflexivity|].
  destruct (np_dtype_struct types) as [exc|dtype]; [|reflexivity].
  destruct (exn_class exc); try reflexivity.
  destruct strict; reflexivity.
Qed.

(** X12: the first included channel that does not translate decides.
    When the included channels before it translate and it raises [e],
    [dfsr_dtype] raises [e] in either mode and logs nothing; the
    channels after it and the duplicates among the mnemonics are not
    looked at. *)
Theorem dfsr_dtype_first_failure (dfs : dfsr) (strict : bool)
    (tr : list event) (l1 l2 : list spec_block) (ch : spec_block) (e : exn) :
  List.filter included (specs dfs) = (l1 ++ ch :: l2)%list ->
  (forall c, In c l1 -> exists d, spec_dtype c = ok d) ->
  spec_dtype ch = raise e ->
  dfsr_dtype dfs strict tr = (raise e, tr).
Proof.
  intros Hsplit Hl1 Hch.
  assert (Hin : included ch = true).
  { assert (H : In ch (List.filter included (specs dfs))).
    { rewrite Hsplit. apply in_or_app. simpl. auto. }
    apply filter_In in H. apply H. }
  assert (E : spec_types (specs dfs) = raise e).
  { rewrite <- spec_types_filter, Hsplit, spec_types_app.
    destruct (spec_types_total reprc_f16 reprc_f32 reprc_f32low reprc_f32fix
                reprc_i8 reprc_i16 reprc_i32 reprc_byte reprc_string
                lis_sizeof_type l1) as [t1 ->].
    { intros c Hc. apply filter_In in Hc. apply Hl1, Hc. }
    rewrite rbind_ok. simpl. rewrite Hin, Hch. reflexivity. }
  rewrite dfsr_dtype_run. unfold raise in E. rewrite E. reflexivity.
Qed.

(** X13: with pairwise distinct mnemonics the mode makes no difference.
    When every included channel translates and the included mnemonics
    are non-empty and pairwise distinct, [dfsr_dtype] returns, in either
    mode and without logging, one field per included channel, in order,
    under the channel's mnemonic and with its translation as dtype. *)
Theorem dfsr_dtype_distinct (dfs : dfsr) (strict : bool) (tr : list event) :
  let chs := List.filter included (specs dfs) in
  (forall ch, In ch chs -> exists d, spec_dtype ch = ok d) ->
  (forall ch, In ch chs -> mnemonic ch <> ""%string) ->
  List.NoDup (map mnemonic chs) ->
  exists dtype : frame_dtype,
    dfsr_dtype dfs strict tr = (ok dtype, tr) /\
    map fst dtype = map mnemonic chs /\
    map spec_dtype chs = map (fun fld => ok (snd fld)) dtype.
Proof.
  intros chs Hall Hne Hnd.
  destruct (spec_types_total _ _ _ _ _ _ _ _ _ _ _ Hall) as [types Ht].
  pose proof (spec_types_names _ _ _ _ _ _ _ _ _ _ _ _ Ht) as Hn.
  fold chs in Hn.
  assert (Hne' : forall n, In n (map fst types) -> n <> ""%string).
  { intros n Hin. rewrite Hn in Hin. apply in_map_iff in Hin.
    destruct Hin as [ch [<- Hin]]. auto. }
  assert (Hrun : dfsr_dtype dfs strict tr = (ok types, tr)).
  { rewrite dfsr_dtype_run. unfold ok in Ht. rewrite Ht.
    unfold np_dtype_struct.
    destruct (np_dtype_fields_nonempty types Hne' 0 [])
      as [[E _]|[n [_ [_ [[]|Hc]]]]]; [rewrite E; reflexivity|].
    exfalso. rewrite <- Hn in Hnd.
    apply (NoDup_count_occ string_dec) with (x := n) in Hnd. lia. }
  exists types. split; [exact Hrun|]. split; [exact Hn|].
  apply (dfsr_dtype_fields _ _ _ _ _ _ _ _ _ _ _ _ _ _ _ Hrun).
Qed.

(** X14: what a returned layout is.  Whenever [dfsr_dtype] returns, the
    field names are pairwise distinct, there is one field per channel
    with [reserved_size > 0] and [samples == 1], in the order of the
    DFSR, each with the translation of its channel as dtype; and the log
    is untouched, unless the mode is lenient and one duplicate-field
    error was logged. *)
Theorem dfsr_dtype_layout (dfs : dfsr) (strict : bool) (tr tr' : list event)
    (dtype : frame_dtype) :
  dfsr_dtype dfs strict tr = (ok dtype, tr') ->
  let chs := List.filter included (specs dfs) in
  List.NoDup (map fst dtype) /\
  length dtype = length chs /\
  map spec_dtype chs = map (fun fld => ok (snd fld)) dtype /\
  (tr' = tr \/
   (strict = false /\
    exists n, tr' = (tr ++ [ev_logging_error dfs
                              (ValueError_duplicate_field n)])%list)).
Proof.
  intros H chs.
  destruct (dfsr_dtype_fields _ _ _ _ _ _ _ _ _ _ _ _ _ _ _ H) as [Hnd Hmap].
  fold chs in Hmap. split; [exact Hnd|]. split.
  { apply (f_equal (@length _)) in Hmap. rewrite !length_map in Hmap.
    congruence. }
  split; [exact Hmap|].
  rewrite dfsr_dtype_run in H.
  destruct (spec_types (specs dfs)) as [e|types]; [discriminate|].
  destruct (np_dtype_struct types) as [exc|dt] eqn:Hn.
  - apply np_dtype_fields_raises in Hn as [n ->]. cbn [exn_class] in H.
    destruct strict; [discriminate|]. cbv zeta in H.
    right. split; [reflexivity|]. exists n. congruence.
  - left. congruence.
Qed.

(** X15: the lenient mode returns a layout exactly when the resolver's
    labels are pairwise distinct.  When the included channels translate
    to [types], with non-empty and not pairwise distinct mnemonics,
    [strict=False] logs numpy's error for a duplicated mnemonic and then
    returns [mkunique types] if its labels are pairwise distinct, and
    otherwise raises numpy's error for a label that [mkunique types]
    holds twice. *)
Theorem dfsr_dtype_lenient (dfs : dfsr) (tr : list event)
    (types : list (string * field_dtype)) :
  spec_types (specs dfs) = ok types ->
  (forall n, In n (map fst types) -> n <> ""%string) ->
  ~ List.NoDup (map fst types) ->
  exists n,
    (1 < count_occ string_dec (map fst types) n)%nat /\
    let tr' := (tr ++ [ev_logging_error dfs
                         (ValueError_duplicate_field n)])%list in
    (List.NoDup (map fst (mkunique types)) ->
     dfsr_dtype dfs false tr = (ok (mkunique types), tr')) /\
    (~ List.NoDup (map fst (mkunique types)) ->
     exists m,
       (1 < count_occ string_dec (map fst (mkunique types)) m)%nat /\
       dfsr_dtype dfs false tr = (raise (ValueError_duplicate_field m), tr')).
Proof.
  intros Ht Hne Hdup.
  destruct (np_dtype_fields_nonempty types Hne 0 [])
    as [[_ [Hnd _]]|[n [E [_ [[]|Hc]]]]]; [contradiction|].
  exists n. split; [exact Hc|]. cbv zeta.
  assert (Hrun : dfsr_dtype dfs false tr
                 = (np_dtype_struct (mkunique types),
                    (tr ++ [ev_logging_error dfs
                              (ValueError_duplicate_field n)])%list)).
  { rewrite dfsr_dtype_run. unfold ok in Ht. rewrite Ht.
    unfold np_dtype_struct at 1. rewrite E. reflexivity. }
  rewrite Hrun. unfold np_dtype_struct.
  pose proof (mkunique_labels_nonempty types Hne) as Hune.
  destruct (np_dtype_fields_nonempty (mkunique types) Hune 0 [])
    as [[E' [Hnd' _]]|[m [E' [_ [[]|Hc']]]]].
  - split; [intros _; now rewrite E'|contradiction].
  - split.
    + intros Hnd'. exfalso.
      apply (NoDup_count_occ string_dec) with (x := m) in Hnd'. lia.
    + intros _. exists m. split; [exact Hc'|]. now rewrite E'.
Qed.

(** X16: the exceptions of [dfsr_dtype].  Either an included channel
    raised it in [spec_dtype] and nothing was logged, or it is numpy's
    duplicate-field [ValueError] and one such error was logged before.
    It is never a [NotImplementedError]. *)
Theorem dfsr_dtype_exceptions (dfs : dfsr) (strict : bool)
    (tr tr' : list event) (e : exn) :
  dfsr_dtype dfs strict tr = (raise e, tr') ->
  ((tr' = tr /\
    exists ch, In ch (List.filter included (specs dfs)) /\
               spec_dtype ch = raise e) \/
   (exists n n',
       e = ValueError_duplicate_field n /\
       tr' = (tr ++ [ev_logging_error dfs
                       (ValueError_duplicate_field n')])%list)) /\
  exn_class e <> PyNotImplementedError.
Proof.
  intros H. rewrite dfsr_dtype_run in H.
  destruct (spec_types (specs dfs)) as [e0|types] eqn:Ht.
  { injection H as <- <-.
    apply spec_types_raise in Ht as [ch [Hin Hch]].
    split; [left; split; [reflexivity|eauto]|].
    destruct (spec_dtype_raise_inv _ _ _ _ _ _ _ _ _ _ _ _ Hch)
      as [V|[[-> _]|[-> _]]]; [congruence|discriminate..]. }
  assert (Hdup : exists n n',
             e = ValueError_duplicate_field n /\
             tr' = (tr ++ [ev_logging_error dfs
                             (ValueError_duplicate_field n')])%list).
  { destruct (np_dtype_struct types) as [exc|dt] eqn:Hn; [|discriminate].
    apply np_dtype_fields_raises in Hn as [n' ->]. cbn [exn_class] in H.
    cbv zeta in H. destruct strict.
    - injection H as <- <-. eauto.
    - destruct (np_dtype_struct (mkunique types)) as [exc|dt] eqn:Hn2;
        [|discriminate].
      apply np_dtype_fields_raises in Hn2 as [n ->].
      injection H as <- <-. eauto. }
  split; [right; exact Hdup|].
  destruct Hdup as [n [n' [-> _]]]. discriminate.
Qed.

(** X17: the depth-mode guard comes first.  A DFSR with an entry of
    type 13 and value 1 makes [curves] raise the depth-mode
    [NotImplementedError] with the trace as it was, whatever [strict]
    and [skip_fast] are and whatever the channels hold: no format string
    is asked for, nothing is translated or logged, the engine is not
    called. *)
Theorem curves_depth_mode_first (f : logical_file) (dfs : dfsr)
    (strict skip_fast : bool) (tr : list event) (x : entry_block) :
  In x (entries dfs) ->
  type x = 13 ->
  value x = val_int 1 ->
  curves f dfs strict skip_fast tr
  = (raise (NotImplementedError depth_mode_msg), tr) /\
  kind_of (NotImplementedError depth_mode_msg) = Some UnsupportedDepthMode.
Proof.
  intros Hin Ht Hv. split; [|reflexivity].
  assert (E : existsb depth_mode_entry (entries dfs) = true).
  { apply existsb_exists. exists x. split; [exact Hin|].
    unfold depth_mode_entry. rewrite Ht, Hv. reflexivity. }
  rewrite curves_run, E. reflexivity.
Qed.

(** X18: [skip_fast] only matters when there is a fast channel.  On a
    DFSR in which no channel has [samples > 1], [curves] does the same
    with [skip_fast=True] as with [skip_fast=False]: the same answer and
    the same trace. *)
Theorem curves_skip_fast_irrelevant (f : logical_file) (dfs : dfsr)
    (strict : bool) (tr : list event) :
  (forall ch, In ch (specs dfs) -> samples ch <= 1) ->
  curves f dfs strict true tr = curves f dfs strict false tr.
Proof.
  intros Hslow.
  assert (E : existsb fast_channel (specs dfs) = false).
  { destruct (existsb fast_channel (specs dfs)) eqn:E; [|reflexivity].
    apply existsb_exists in E as [ch [Hin Hf]].
    unfold fast_channel in Hf. apply Z.ltb_lt in Hf.
    specialize (Hslow ch Hin). lia. }
  rewrite !curves_run, E. reflexivity.
Qed.

(** X19: past the guards, [curves] answers what the engine answers.
    When no entry asks for depth recording mode 1, no fast channel
    stands in the way, the format string [fmt] is built and
    [dfsr_dtype] returns [dtype], the engine is called once, as the
    last event, with [fmt], the file's [io] and [index], the DFSR's
    [info], the byte size of [dtype] and an allocator that gives arrays
    of that dtype of the size asked for; and its answer, a record set or
    an exception, is the answer of [curves]. *)
Theorem curves_engine_answer (f : logical_file) (dfs : dfsr)
    (strict skip_fast : bool) (tr tr' : list event) (fmt : string)
    (dtype : frame_dtype) :
  existsb depth_mode_entry (entries dfs) = false ->
  existsb fast_channel (specs dfs) && negb skip_fast = false ->
  dfs_formatstring dfs = ok fmt ->
  dfsr_dtype dfs strict tr = (ok dtype, tr') ->
  let alloc := fun size => np_empty size dtype in
  let answer := read_data_records fmt (io f) (index f) (info dfs)
                  (itemsize dtype) alloc in
  curves f dfs strict skip_fast tr
  = (answer, (tr' ++ [engine_call f dfs fmt dtype])%list) /\
  engine_calls (tr' ++ [engine_call f dfs fmt dtype])
  = (engine_calls tr ++ [engine_call f dfs fmt dtype])%list /\
  (forall size, shape (alloc size) = size /\ dtype_of (alloc size) = dtype).
Proof.
  intros Hdepth Hfast Hfmt Hd alloc answer. split; [|split].
  - rewrite curves_run, Hdepth, Hfast. unfold ok in Hfmt, Hd.
    rewrite Hfmt, Hd. reflexivity.
  - rewrite engine_calls_app.
    pose proof (dfsr_dtype_engine_calls reprc_f16 reprc_f32 reprc_f32low
      reprc_f32fix reprc_i8 reprc_i16 reprc_i32 reprc_byte reprc_string
      lis_sizeof_type dfs strict tr) as Hc.
    rewrite Hd in Hc. simpl in Hc. rewrite Hc. reflexivity.
  - intros size. split; reflexivity.
Qed.

End PipelineMore.
(** * Runs on the LIS79 codes *)

Lemma spec_dtype_multiple_witness :
  exists d : field_dtype,
    LIS79.spec_dtype Samples.i32_8 = ok d /\
    d = dt_subarray "i4" 2 /\
    element_type d = "i4" /\
    element_count d = 2 /\
    (element_count d = 1 <-> 8 = 4).
Proof.
  apply (spec_dtype_multiple LIS79.f16 LIS79.f32 LIS79.f32low LIS79.f32fix
           LIS79.i8 LIS79.i16 LIS79.i32 LIS79.byte LIS79.string_code
           LIS79.sizeof_type Samples.i32_8 "i4" 4);
    try reflexivity; try discriminate.
Defined.

Lemma spec_dtype_not_multiple_witness :
  LIS79.spec_dtype Samples.i32_6 = raise ValueError_reserved_sizeof /\
  kind_of ValueError_reserved_sizeof = Some InvalidLayout.
Proof.
  apply (spec_dtype_not_multiple LIS79.f16 LIS79.f32 LIS79.f32low
           LIS79.f32fix LIS79.i8 LIS79.i16 LIS79.i32 LIS79.byte
           LIS79.string_code LIS79.sizeof_type Samples.i32_6 4);
    try reflexivity; discriminate.
Defined.

Lemma spec_dtype_string_witness :
  LIS79.spec_dtype Samples.str_7 = ok (dt_scalar "O") /\
  element_count (dt_scalar "O") = 1.
Proof.
  apply (spec_dtype_string LIS79.f16 LIS79.f32 LIS79.f32low LIS79.f32fix
           LIS79.i8 LIS79.i16 LIS79.i32 LIS79.byte LIS79.string_code
           LIS79.sizeof_type Samples.str_7); reflexivity.
Defined.

(** The mask code of the standard is no key of [nptype]. *)
Lemma unsupported_code_fails_witness :
  nptype_getitem LIS79.f16 LIS79.f32 LIS79.f32low LIS79.f32fix LIS79.i8
    LIS79.i16 LIS79.i32 LIS79.byte LIS79.string_code LIS79.mask
  = raise (KeyError LIS79.mask) /\
  kind_of (KeyError LIS79.mask) = Some UnsupportedCode /\
  forall spec : spec_block,
    reprc spec = LIS79.mask -> exists e : exn, LIS79.spec_dtype spec = raise e.
Proof.
  apply (unsupported_code_fails LIS79.f16 LIS79.f32 LIS79.f32low LIS79.f32fix
           LIS79.i8 LIS79.i16 LIS79.i32 LIS79.byte LIS79.string_code
           LIS79.sizeof_type LIS79.mask).
  simpl. intros H. repeat destruct H as [H|H]; try discriminate H. exact H.
Defined.

Lemma dfsr_dtype_duplicates_witness :
  (exists name,
      (1 < count_occ string_dec ["TIME"; "TIME"] name)%nat /\
      LIS79.dfsr_dtype Samples.time_twice true []
      = (raise (ValueError_duplicate_field name),
         [ev_logging_error Samples.time_twice
            (ValueError_duplicate_field name)]) /\
      kind_of (ValueError_duplicate_field name) = Some DuplicateFieldName)
  /\
  (forall fields tr',
      LIS79.dfsr_dtype Samples.time_twice false [] = (ok fields, tr') ->
      List.NoDup (map fst fields))
  /\
  (tails_fresh ["TIME"; "TIME"] ->
   exists fields tr',
     LIS79.dfsr_dtype Samples.time_twice false [] = (ok fields, tr') /\
     List.NoDup (map fst fields) /\
     length fields = 2%nat).
Proof.
  apply (dfsr_dtype_duplicates LIS79.f16 LIS79.f32 LIS79.f32low LIS79.f32fix
           LIS79.i8 LIS79.i16 LIS79.i32 LIS79.byte LIS79.string_code
           LIS79.sizeof_type Samples.time_twice []).
  - simpl. intros ch [<-|[<-|[]]]; eexists; reflexivity.
  - simpl. intros n [<-|[<-|[]]]; discriminate.
  - simpl. intros H. apply (NoDup_count_occ string_dec) with (x := "TIME"%string) in H.
    simpl in H. lia.
Defined.

Lemma dfsr_dtype_duplicates_lenient :
  tails_fresh ["TIME"; "TIME"] /\
  LIS79.dfsr_dtype Samples.time_twice false []
  = (ok [("TIME(0)", dt_scalar "i2"); ("TIME(1)", dt_scalar "i4")],
     [ev_logging_error Samples.time_twice (ValueError_duplicate_field "TIME")]).
Proof.
  split; [apply tails_fresh_no_paren|]; reflexivity.
Qed.

(** C1 as it is stated fails where an included channel does not
    translate: [A] occurs twice, yet [strict=True] raises the error of
    the width check, which is no DuplicateFieldName, and [strict=False]
    raises it as well instead of returning a layout. *)
Lemma dfsr_dtype_duplicates_counterexample :
  ~ List.NoDup
      (map mnemonic (List.filter included (specs Samples.twice_bad_size))) /\
  LIS79.dfsr_dtype Samples.twice_bad_size true []
  = (raise ValueError_reserved_sizeof, []) /\
  kind_of ValueError_reserved_sizeof <> Some DuplicateFieldName /\
  ~ (exists fields tr',
        LIS79.dfsr_dtype Samples.twice_bad_size false [] = (ok fields, tr')).
Proof.
  split; [|split; [reflexivity|split; [discriminate|]]].
  - simpl. intros H.
    apply (NoDup_count_occ string_dec) with (x := "A"%string) in H.
    simpl in H. lia.
  - intros [fields [tr' H]]. vm_compute in H. discriminate H.
Qed.

(** Where the resolver's tail runs into a label of the DFSR,
    [strict=False] does not return a layout either: it raises numpy's
    duplicate-field error for the label [A(0)]. *)
Example dfsr_dtype_lenient_collision :
  LIS79.dfsr_dtype Samples.twice_and_tailed false []
  = (raise (ValueError_duplicate_field "A(0)"),
     [ev_logging_error Samples.twice_and_tailed
        (ValueError_duplicate_field "A")]).
Proof. reflexivity. Qed.

Lemma curves_fast_channels_witness :
  (LIS79.curves Samples.file Samples.with_fast true false []
   = (raise (NotImplementedError fast_channel_msg), []) /\
   kind_of (NotImplementedError fast_channel_msg) = Some FastChannelsPresent)
  /\
  LIS79.curves Samples.file Samples.with_fast true true []
  = (ok (np_empty 1 [("DEPT", dt_scalar "f4"); ("GR", dt_scalar "i2")]),
     [engine_call Samples.file Samples.with_fast ""
        [("DEPT", dt_scalar "f4"); ("GR", dt_scalar "i2")]]).
Proof.
  pose proof (curves_fast_channels LIS79.f16 LIS79.f32 LIS79.f32low
    LIS79.f32fix LIS79.i8 LIS79.i16 LIS79.i32 LIS79.byte LIS79.string_code
    LIS79.sizeof_type LIS79.formatstring LIS79.engine
    Samples.file Samples.with_fast true [] eq_refl eq_refl) as [Hraise Hrun].
  split; [exact Hraise|].
  exact (proj1 (Hrun "" [("DEPT", dt_scalar "f4"); ("GR", dt_scalar "i2")] []
                  eq_refl eq_refl)).
Defined.

(** C6 as it is stated fails on a DFSR that also asks for depth
    recording mode 1: with [skip_fast=False] the error is the one of the
    depth-mode guard, which runs first. *)
Lemma curves_fast_channels_counterexample :
  existsb fast_channel (specs Samples.fast_and_depth_mode) = true /\
  LIS79.curves Samples.file Samples.fast_and_depth_mode true false []
  = (raise (NotImplementedError depth_mode_msg), []) /\
  kind_of (NotImplementedError depth_mode_msg) = Some UnsupportedDepthMode /\
  kind_of (NotImplementedError depth_mode_msg) <> Some FastChannelsPresent.
Proof.
  repeat split; try reflexivity. discriminate.
Qed.

Lemma curves_empty_layout_witness :
  LIS79.dfsr_dtype Samples.all_excluded true [] = (ok [], []) /\
  length (@nil (string * field_dtype)) = 0%nat /\
  itemsize [] = 0 /\
  LIS79.curves Samples.file Samples.all_excluded true true []
  = (ok (np_empty 1 []),
     [engine_call Samples.file Samples.all_excluded "" []]).
Proof.
  assert (Hex : forall ch, In ch (specs Samples.all_excluded) ->
                           included ch = false).
  { simpl. intros ch [<-|[<-|[]]]; reflexivity. }
  destruct (curves_empty_layout LIS79.f16 LIS79.f32 LIS79.f32low
    LIS79.f32fix LIS79.i8 LIS79.i16 LIS79.i32 LIS79.byte LIS79.string_code
    LIS79.sizeof_type LIS79.formatstring LIS79.engine
    Samples.file Samples.all_excluded true [] Hex) as [Hd [Hl [Hw Hrun]]].
  split; [exact Hd|]. split; [exact Hl|]. split; [exact Hw|].
  exact (Hrun "" eq_refl eq_refl).
Defined.

(** C10 as it is stated fails on a DFSR that asks for depth recording
    mode 1: every channel is excluded and [skip_fast] is set, yet
    [curves] raises and the engine is not called. *)
Lemma curves_empty_layout_counterexample :
  (forall ch, In ch (specs Samples.all_excluded_depth_mode) ->
              included ch = false) /\
  LIS79.curves Samples.file Samples.all_excluded_depth_mode true true []
  = (raise (NotImplementedError depth_mode_msg), []) /\
  engine_calls
    (snd (LIS79.curves Samples.file Samples.all_excluded_depth_mode
            true true [])) = [].
Proof.
  split; [|split; reflexivity].
  simpl. intros ch [<-|[<-|[]]]; reflexivity.
Qed.

(** ** Runs of the further properties *)

Lemma spec_dtype_samples_not_dividing_witness :
  LIS79.spec_dtype MoreSamples.odd_size = raise ValueError_reserve_samples.
Proof.
  apply (spec_dtype_samples_not_dividing LIS79.f16 LIS79.f32 LIS79.f32low
           LIS79.f32fix LIS79.i8 LIS79.i16 LIS79.i32 LIS79.byte
           LIS79.string_code LIS79.sizeof_type MoreSamples.odd_size);
    [simpl; lia|discriminate].
Defined.

Lemma spec_dtype_per_sample_witness :
  exists d : field_dtype,
    LIS79.spec_dtype MoreSamples.two_by_two = ok d /\
    d = dt_subarray "i2" 2 /\
    element_type d = "i2" /\
    element_count d * (2 * 2) = 8.
Proof.
  apply (spec_dtype_per_sample LIS79.f16 LIS79.f32 LIS79.f32low
           LIS79.f32fix LIS79.i8 LIS79.i16 LIS79.i32 LIS79.byte
           LIS79.string_code LIS79.sizeof_type MoreSamples.two_by_two "i2" 2);
    try reflexivity; try discriminate.
Defined.

Lemma spec_dtype_sound_witness :
  1 <= 1 /\
  8 mod 1 = 0 /\
  ((LIS79.i32 = LIS79.string_code /\ dt_subarray "i4" 2 = dt_scalar "O") \/
   (LIS79.i32 <> LIS79.string_code /\
    LIS79.sizeof_type LIS79.i32 <> 0 /\
    nptype_getitem LIS79.f16 LIS79.f32 LIS79.f32low LIS79.f32fix LIS79.i8
      LIS79.i16 LIS79.i32 LIS79.byte LIS79.string_code LIS79.i32 = ok "i4" /\
    0 <= 2 /\
    2 * (1 * LIS79.sizeof_type LIS79.i32) = 8 /\
    (0 < 8 -> 0 < LIS79.sizeof_type LIS79.i32 /\ 1 <= 2))).
Proof.
  apply (spec_dtype_sound LIS79.f16 LIS79.f32 LIS79.f32low
           LIS79.f32fix LIS79.i8 LIS79.i16 LIS79.i32 LIS79.byte
           LIS79.string_code LIS79.sizeof_type Samples.i32_8
           (dt_subarray "i4" 2)).
  reflexivity.
Defined.

Lemma spec_dtype_exceptions_witness :
  (exn_class ValueError_reserved_sizeof = PyValueError \/
   (ValueError_reserved_sizeof = KeyError LIS79.i32 /\
    nptype_getitem LIS79.f16 LIS79.f32 LIS79.f32low LIS79.f32fix LIS79.i8
      LIS79.i16 LIS79.i32 LIS79.byte LIS79.string_code LIS79.i32
    = raise (KeyError LIS79.i32)) \/
   (ValueError_reserved_sizeof = ZeroDivisionError /\
    LIS79.i32 <> LIS79.string_code /\ LIS79.sizeof_type LIS79.i32 = 0)) /\
  exn_class ValueError_reserved_sizeof <> PyNotImplementedError.
Proof.
  apply (spec_dtype_exceptions LIS79.f16 LIS79.f32 LIS79.f32low
           LIS79.f32fix LIS79.i8 LIS79.i16 LIS79.i32 LIS79.byte
           LIS79.string_code LIS79.sizeof_type Samples.i32_6
           ValueError_reserved_sizeof).
  reflexivity.
Defined.

Lemma spec_dtype_zero_width_witness :
  LIS79.spec_dtype MoreSamples.masked = raise ZeroDivisionError.
Proof.
  apply (spec_dtype_zero_width LIS79.f16 LIS79.f32 LIS79.f32low
           LIS79.f32fix LIS79.i8 LIS79.i16 LIS79.i32 LIS79.byte
           LIS79.string_code LIS79.sizeof_type MoreSamples.masked);
    try reflexivity; try discriminate.
Defined.

Lemma mkunique_touches_duplicates_only_witness :
  exists suffix : string,
    nth_error (mkunique MoreSamples.time_pairs) 1
    = Some (("TIME" ++ suffix)%string, dt_scalar "i4") /\
    (suffix = ""%string
     <-> (count_occ string_dec (map fst MoreSamples.time_pairs) "TIME" <= 1)%nat).
Proof.
  apply (mkunique_touches_duplicates_only MoreSamples.time_pairs 1 "TIME"
           (dt_scalar "i4")).
  reflexivity.
Defined.

Lemma mkunique_unique_labels_witness :
  List.NoDup (map fst (mkunique MoreSamples.time_pairs)) /\
  ((forall n, In n (map fst MoreSamples.time_pairs) -> n <> ""%string) ->
   forall x, In x (map fst (mkunique MoreSamples.time_pairs)) -> x <> ""%string).
Proof.
  apply (mkunique_unique_labels MoreSamples.time_pairs).
  apply tails_fresh_no_paren. reflexivity.
Defined.

Lemma mkunique_numbers_occurrences_witness :
  mkunique MoreSamples.time_pairs = resolver_spec MoreSamples.time_pairs /\
  nth_error (mkunique MoreSamples.time_pairs) 1
  = Some ("TIME(1)", dt_scalar "i4").
Proof.
  apply (mkunique_numbers_occurrences MoreSamples.time_pairs 1 "TIME"
           (dt_scalar "i4")).
  - apply tails_fresh_no_paren. reflexivity.
  - reflexivity.
Defined.

Lemma dfsr_dtype_ignores_excluded_witness :
  fst (LIS79.dfsr_dtype Samples.with_fast true [])
  = fst (LIS79.dfsr_dtype MoreSamples.without_fast true []).
Proof.
  apply (dfsr_dtype_ignores_excluded LIS79.f16 LIS79.f32 LIS79.f32low
           LIS79.f32fix LIS79.i8 LIS79.i16 LIS79.i32 LIS79.byte
           LIS79.string_code LIS79.sizeof_type
           Samples.with_fast MoreSamples.without_fast true []).
  reflexivity.
Defined.

Lemma dfsr_dtype_first_failure_witness :
  LIS79.dfsr_dtype Samples.twice_bad_size false []
  = (raise ValueError_reserved_sizeof, []).
Proof.
  apply (dfsr_dtype_first_failure LIS79.f16 LIS79.f32 LIS79.f32low
           LIS79.f32fix LIS79.i8 LIS79.i16 LIS79.i32 LIS79.byte
           LIS79.string_code LIS79.sizeof_type
           Samples.twice_bad_size false [] []
           [Samples.channel "A" LIS79.i32 4 1]
           (Samples.channel "A" LIS79.i32 3 1)).
  - reflexivity.
  - intros c [].
  - reflexivity.
Defined.

Lemma dfsr_dtype_distinct_witness :
  exists dtype : frame_dtype,
    LIS79.dfsr_dtype Samples.with_fast false [] = (ok dtype, []) /\
    map fst dtype = ["DEPT"; "GR"] /\
    map LIS79.spec_dtype (List.filter included (specs Samples.with_fast))
    = map (fun fld => ok (snd fld)) dtype.
Proof.
  apply (dfsr_dtype_distinct LIS79.f16 LIS79.f32 LIS79.f32low
           LIS79.f32fix LIS79.i8 LIS79.i16 LIS79.i32 LIS79.byte
           LIS79.string_code LIS79.sizeof_type Samples.with_fast false []).
  - simpl. intros ch [<-|[<-|[]]]; eexists; reflexivity.
  - simpl. intros ch [<-|[<-|[]]]; discriminate.
  - simpl. repeat constructor; simpl; intuition discriminate.
Defined.

Lemma dfsr_dtype_layout_witness :
  List.NoDup ["TIME(0)"; "TIME(1)"] /\
  2%nat = length (List.filter included (specs Samples.time_twice)) /\
  map LIS79.spec_dtype (List.filter included (specs Samples.time_twice))
  = [ok (dt_scalar "i2"); ok (dt_scalar "i4")] /\
  ([ev_logging_error Samples.time_twice (ValueError_duplicate_field "TIME")]
   = [] \/
   (false = false /\
    exists n, [ev_logging_error Samples.time_twice
                 (ValueError_duplicate_field "TIME")]
              = ([] ++ [ev_logging_error Samples.time_twice
                          (ValueError_duplicate_field n)])%list)).
Proof.
  apply (dfsr_dtype_layout LIS79.f16 LIS79.f32 LIS79.f32low
           LIS79.f32fix LIS79.i8 LIS79.i16 LIS79.i32 LIS79.byte
           LIS79.string_code LIS79.sizeof_type Samples.time_twice false []
           [ev_logging_error Samples.time_twice
              (ValueError_duplicate_field "TIME")]
           [("TIME(0)", dt_scalar "i2"); ("TIME(1)", dt_scalar "i4")]).
  reflexivity.
Defined.

Lemma dfsr_dtype_exceptions_witness :
  ((@nil event = [] /\
    exists ch, In ch (List.filter included (specs Samples.twice_bad_size)) /\
               LIS79.spec_dtype ch = raise ValueError_reserved_sizeof) \/
   (exists n n',
       ValueError_reserved_sizeof = ValueError_duplicate_field n /\
       [] = ([] ++ [ev_logging_error Samples.twice_bad_size
                      (ValueError_duplicate_field n')])%list)) /\
  exn_class ValueError_reserved_sizeof <> PyNotImplementedError.
Proof.
  apply (dfsr_dtype_exceptions LIS79.f16 LIS79.f32 LIS79.f32low
           LIS79.f32fix LIS79.i8 LIS79.i16 LIS79.i32 LIS79.byte
           LIS79.string_code LIS79.sizeof_type Samples.twice_bad_size true
           [] [] ValueError_reserved_sizeof).
  reflexivity.
Defined.

Lemma curves_depth_mode_first_witness :
  LIS79.curves Samples.file Samples.fast_and_depth_mode false true []
  = (raise (NotImplementedError depth_mode_msg), []) /\
  kind_of (NotImplementedError depth_mode_msg) = Some UnsupportedDepthMode.
Proof.
  apply (curves_depth_mode_first LIS79.f16 LIS79.f32 LIS79.f32low
           LIS79.f32fix LIS79.i8 LIS79.i16 LIS79.i32 LIS79.byte
           LIS79.string_code LIS79.sizeof_type LIS79.formatstring LIS79.engine
           Samples.file Samples.fast_and_depth_mode false true []
           Samples.depth_mode_1).
  - simpl. auto.
  - reflexivity.
  - reflexivity.
Defined.

Lemma curves_skip_fast_irrelevant_witness :
  LIS79.curves Samples.file MoreSamples.without_fast true true []
  = LIS79.curves Samples.file MoreSamples.without_fast true false [].
Proof.
  apply (curves_skip_fast_irrelevant LIS79.f16 LIS79.f32 LIS79.f32low
           LIS79.f32fix LIS79.i8 LIS79.i16 LIS79.i32 LIS79.byte
           LIS79.string_code LIS79.sizeof_type LIS79.formatstring LIS79.engine
           Samples.file MoreSamples.without_fast true []).
  simpl. intros ch [<-|[<-|[]]]; simpl; lia.
Defined.

Lemma dfsr_dtype_lenient_witness :
  let types := [("A", dt_scalar "i4"); ("A", dt_scalar "i4");
                ("A(0)", dt_scalar "i4")] in
  exists n,
    (1 < count_occ string_dec (map fst types) n)%nat /\
    let tr' := ([] ++ [ev_logging_error Samples.twice_and_tailed
                         (ValueError_duplicate_field n)])%list in
    (List.NoDup (map fst (mkunique types)) ->
     LIS79.dfsr_dtype Samples.twice_and_tailed false []
     = (ok (mkunique types), tr')) /\
    (~ List.NoDup (map fst (mkunique types)) ->
     exists m,
       (1 < count_occ string_dec (map fst (mkunique types)) m)%nat /\
       LIS79.dfsr_dtype Samples.twice_and_tailed false []
       = (raise (ValueError_duplicate_field m), tr')).
Proof.
  intros types.
  apply (dfsr_dtype_lenient LIS79.f16 LIS79.f32 LIS79.f32low
           LIS79.f32fix LIS79.i8 LIS79.i16 LIS79.i32 LIS79.byte
           LIS79.string_code LIS79.sizeof_type Samples.twice_and_tailed []
           types).
  - reflexivity.
  - simpl. intros n [<-|[<-|[<-|[]]]]; discriminate.
  - simpl. intros H.
    apply (NoDup_count_occ string_dec) with (x := "A"%string) in H.
    simpl in H. lia.
Defined.

Lemma curves_engine_answer_witness :
  let dtype := [("DEPT", dt_scalar "f4"); ("GR", dt_scalar "i2")] in
  LIS79.curves Samples.file Samples.with_fast true true []
  = (ok (np_empty 1 dtype),
     ([] ++ [engine_call Samples.file Samples.with_fast "" dtype])%list) /\
  engine_calls ([] ++ [engine_call Samples.file Samples.with_fast "" dtype])
  = (engine_calls [] ++ [engine_call Samples.file Samples.with_fast "" dtype])%list /\
  (forall size, shape (np_empty size dtype) = size /\
                dtype_of (np_empty size dtype) = dtype).
Proof.
  intros dtype.
  apply (curves_engine_answer LIS79.f16 LIS79.f32 LIS79.f32low
           LIS79.f32fix LIS79.i8 LIS79.i16 LIS79.i32 LIS79.byte
           LIS79.string_code LIS79.sizeof_type LIS79.formatstring LIS79.engine
           Samples.file Samples.with_fast true true [] [] "" dtype);
    reflexivity.
Defined.
